(** * A user service over one SQL table: model of [main.go] and its properties

    The program is a thin HTTP service: it picks a log destination, loads a
    configuration, connects to a database and serves six routes.  Its own
    code is glue around library calls, so the development has two layers:

    - the packages the program calls ([net/http], [database/sql],
      [encoding/json], [os], [log], [godotenv], [html/template]) are
      modelled as far as the program uses them; what a package decides on
      its own (how a driver answers, how a body is decoded) is an interface
      ([Class]) the program is verified against for every implementation;
    - the functions of [main.go] are transcribed statement by statement in a
      small monad that threads the mutable state and carries [panic] and
      [os.Exit]. *)

From Stdlib Require Import ZArith String Ascii List DecimalString.
From stdpp Require Import base gmap strings list.

Open Scope string_scope.
Open Scope Z_scope.

(* ===================================================================== *)
(** * Go values                                                           *)
(* ===================================================================== *)

(** A Go [error] is represented by its [Error()] text; the [nil] error is
    [None] of [option error]. *)
Definition error : Type := string.

(** The line feed [fmt.Fprintln] and [json.Encoder.Encode] end their output
    with, and the double quote of JSON text. *)
Definition LF : string := String (ascii_of_nat 10) EmptyString.
Definition DQ : string := String (ascii_of_nat 34) EmptyString.

(** [strconv.Itoa] on Go's [int]. *)
Definition Itoa (z : Z) : string := NilZero.string_of_int (Z.to_int z).

(** A slice is either [nil] or backed by an array; [append] to the [nil]
    slice allocates.  The difference is visible to [encoding/json]. *)
Inductive slice (A : Type) : Type :=
| nilSlice
| sliceOf (elems : list A).
Arguments nilSlice {A}.
Arguments sliceOf {A} elems.

Definition append {A : Type} (s : slice A) (x : A) : slice A :=
  match s with
  | nilSlice => sliceOf [x]
  | sliceOf l => sliceOf (l ++ [x])
  end.

(* ===================================================================== *)
(** * Control: return, panic, exit                                        *)
(* ===================================================================== *)

(** A Go function body run on a state [S]: it returns a value, panics, or
    ends the process through [os.Exit] (as [log.Fatal] does). *)
Inductive Result (A : Type) : Type :=
| Val (a : A)
| Panic (v : string)
| Exit (code : Z).
Arguments Val {A} a.
Arguments Panic {A} v.
Arguments Exit {A} code.

Definition Go (S A : Type) : Type := S → Result A * S.

Definition ret {S A : Type} (a : A) : Go S A := λ s, (Val a, s).

Definition bind {S A B : Type} (m : Go S A) (k : A → Go S B) : Go S B :=
  λ s, match m s with
       | (Val a, s') => k a s'
       | (Panic v, s') => (Panic v, s')
       | (Exit c, s') => (Exit c, s')
       end.

Definition panic {S A : Type} (v : string) : Go S A := λ s, (Panic v, s).
Definition exit {S A : Type} (code : Z) : Go S A := λ s, (Exit code, s).
Definition get {S : Type} : Go S S := λ s, (Val s, s).
Definition modify {S : Type} (f : S → S) : Go S unit := λ s, (Val tt, f s).

Declare Scope go_scope.
Delimit Scope go_scope with go.
Notation "x <- m ;; k" := (bind m (λ x, k))
  (at level 100, m at next level, right associativity) : go_scope.
Notation "m ;;; k" := (bind m (λ _, k))
  (at level 100, right associativity) : go_scope.

(* ===================================================================== *)
(** * Package [net/http]                                                  *)
(* ===================================================================== *)

Module http.

Definition StatusOK : Z := 200.
Definition StatusCreated : Z := 201.
Definition StatusSeeOther : Z := 303.
Definition StatusBadRequest : Z := 400.
Definition StatusInternalServerError : Z := 500.
Definition StatusServiceUnavailable : Z := 503.

Definition StatusText (code : Z) : string :=
  if code =? 200 then "OK"
  else if code =? 201 then "Created"
  else if code =? 303 then "See Other"
  else if code =? 400 then "Bad Request"
  else if code =? 500 then "Internal Server Error"
  else if code =? 503 then "Service Unavailable"
  else "".

(** [http.Header] and [url.Values] are both [map[string][]string]. *)
Abbreviation Header := (gmap string (list string)).
Abbreviation Values := (gmap string (list string)).

(** The response under construction.  [header] is the map a handler edits;
    [committed] is the status line and the header snapshot taken by the
    first [WriteHeader] (explicit, or implied by the first [Write]): later
    edits of [header] no longer reach the client.  [written] is the body. *)
Record ResponseWriter : Type := mkResponseWriter {
  header : Header;
  committed : option (Z * Header);
  written : string
}.

Definition NewResponseWriter : ResponseWriter :=
  {| header := ∅; committed := None; written := "" |}.

(** The keys this program sets are already in canonical MIME form. *)
Definition Set_ (key value : string) (w : ResponseWriter) : ResponseWriter :=
  {| header := <[key := [value]]> (header w);
     committed := committed w;
     written := written w |}.

Definition Del (key : string) (w : ResponseWriter) : ResponseWriter :=
  {| header := delete key (header w);
     committed := committed w;
     written := written w |}.

Definition WriteHeader (code : Z) (w : ResponseWriter) : ResponseWriter :=
  match committed w with
  | Some _ => w (* superfluous call: logged by the server, ignored *)
  | None => {| header := header w;
               committed := Some (code, header w);
               written := written w |}
  end.

Definition bodyAllowedForStatus (status : Z) : bool :=
  if (100 <=? status) && (status <=? 199) then false
  else if status =? 204 then false
  else if status =? 304 then false
  else true.

(** [Write] sends the header with [StatusOK] if none was sent yet. *)
Definition Write (p : string) (w : ResponseWriter) : ResponseWriter :=
  let w' := WriteHeader StatusOK w in
  match committed w' with
  | Some (code, _) =>
      if bodyAllowedForStatus code
      then {| header := header w';
              committed := committed w';
              written := written w' +:+ p |}
      else w'
  | None => w'
  end.

(** [fmt.Fprintln(w, s)] on a response writer. *)
Definition Fprintln (s : string) (w : ResponseWriter) : ResponseWriter :=
  Write (s +:+ LF) w.

(** [http.Error]. *)
Definition Error (err : string) (code : Z) (w : ResponseWriter) : ResponseWriter :=
  let w := Del "Content-Length" w in
  let w := Set_ "Content-Type" "text/plain; charset=utf-8" w in
  let w := Set_ "X-Content-Type-Options" "nosniff" w in
  let w := WriteHeader code w in
  Fprintln err w.

(** The header fields [http.Error] leaves on a writer that had none. *)
Definition errorHeaders : Header :=
  <["X-Content-Type-Options" := ["nosniff"]]>
    (<["Content-Type" := ["text/plain; charset=utf-8"]]> ∅).

(** What the client receives once the handler has returned: a handler that
    never wrote gets [200] and the header map as it stands. *)
Record Response : Type := mkResponse {
  Status : Z;
  Headers : Header;
  Content : string
}.

Definition response (w : ResponseWriter) : Response :=
  match committed w with
  | Some (code, h) => {| Status := code; Headers := h; Content := written w |}
  | None => {| Status := StatusOK; Headers := header w; Content := written w |}
  end.

(** The request fields the handlers read.  [Form] is [nil] until
    [ParseForm] has run. *)
Record Request : Type := mkRequest {
  Method : string;
  Path : string;
  RawQuery : string;
  ContentType : string;
  Body : string;
  Form : option Values
}.

(** The first value under [key], or the empty string ([url.Values.Get]). *)
Definition Get (key : string) (vs : Values) : string :=
  match vs !! key with
  | Some (v :: _) => v
  | _ => ""
  end.

(** How [net/http] turns a request's query string and body into form
    values: the values it could read, and the first error it met, if any.
    Values read before an error are kept. *)
Class FormParser : Type := {
  parseForm : Request → Values * option error
}.

Section Forms.
Context `{FormParser}.

(** [r.ParseForm()]: idempotent, fills [r.Form], returns the parse error. *)
Definition ParseForm (r : Request) : Request * option error :=
  match Form r with
  | Some _ => (r, None)
  | None =>
      let '(vs, err) := parseForm r in
      ({| Method := Method r; Path := Path r; RawQuery := RawQuery r;
          ContentType := ContentType r; Body := Body r; Form := Some vs |},
       err)
  end.

(** [r.FormValue(key)]: parses first when [r.Form] is [nil], ignores any
    error, and yields the first value for [key] or the empty string. *)
Definition FormValue (key : string) (r : Request) : string :=
  let r' := match Form r with
            | Some _ => r
            | None => fst (ParseForm r)
            end in
  match Form r' with
  | Some vs => Get key vs
  | None => ""
  end.

End Forms.

Definition htmlEscape (s : string) : string :=
  String.concat ""
    (map (λ c : ascii,
            if Ascii.eqb c "&" then "&amp;"
            else if Ascii.eqb c "<" then "&lt;"
            else if Ascii.eqb c ">" then "&gt;"
            else if Ascii.eqb c (ascii_of_nat 34) then "&#34;"
            else if Ascii.eqb c "'" then "&#39;"
            else String c EmptyString)
         (list_ascii_of_string s)).

(** [http.Redirect] for a target that is a rooted, clean, ASCII path, such
    as the ["/"] this program redirects to: on such a target the
    normalisation [net/http] applies (resolution against the request path,
    [path.Clean], escaping of non-ASCII bytes) changes nothing, and it is
    left out. *)
Definition Redirect (r : Request) (url : string) (code : Z)
    (w : ResponseWriter) : ResponseWriter :=
  let hadCT := bool_decide (is_Some (header w !! "Content-Type")) in
  let w := Set_ "Location" url w in
  let w := if negb hadCT && (String.eqb (Method r) "GET" || String.eqb (Method r) "HEAD")
           then Set_ "Content-Type" "text/html; charset=utf-8" w
           else w in
  let w := WriteHeader code w in
  if negb hadCT && String.eqb (Method r) "GET"
  then Fprintln ("<a href=" +:+ DQ +:+ htmlEscape url +:+ DQ +:+ ">"
                 +:+ StatusText code +:+ "</a>." +:+ LF) w
  else w.

End http.

(* ===================================================================== *)
(** * Package [database/sql]                                              *)
(* ===================================================================== *)

Module sql.

(** The statements a handle was asked to run, oldest first: a ghost log
    kept beside the connection, so that "no database operation" and
    "exactly this insert" can be stated. *)
Inductive Call : Type :=
| ExecCall (query : string) (args : list string)
| QueryCall (query : string)
| PingCall
| RowsCloseCall.

(** What [rows.Scan(&id, &first, &last)] yields for one result row: the
    three converted column values, or the conversion error. *)
Definition Scanned : Type := (error + (Z * string * string))%type.

(** The driver and the server behind it.  [Conn] is everything that
    decides their answers (the tables, whether the server is reachable);
    every operation may change it. *)
Class Driver (Conn : Type) : Type := {
  driverOpen : string → string → error + Conn;
  driverExec : string → list string → Conn → option error * Conn;
  driverQuery : string → Conn → (error + list Scanned) * Conn;
  driverPing : Conn → option error * Conn
}.

Record DB (Conn : Type) : Type := mkDB {
  conn : Conn;
  calls : list Call
}.
Arguments mkDB {Conn} conn calls.
Arguments conn {Conn} d.
Arguments calls {Conn} d.

Section Handle.
Context {Conn : Type} `{Driver Conn}.

Definition Open (driverName dataSourceName : string) : error + DB Conn :=
  match driverOpen driverName dataSourceName with
  | inl e => inl e
  | inr c => inr (mkDB c [])
  end.

Definition Exec (query : string) (args : list string) (d : DB Conn)
    : option error * DB Conn :=
  let '(err, c) := driverExec query args (conn d) in
  (err, mkDB c (calls d ++ [ExecCall query args])).

Definition Query (query : string) (d : DB Conn)
    : (error + list Scanned) * DB Conn :=
  let '(res, c) := driverQuery query (conn d) in
  (res, mkDB c (calls d ++ [QueryCall query])).

Definition Ping (d : DB Conn) : option error * DB Conn :=
  let '(err, c) := driverPing (conn d) in
  (err, mkDB c (calls d ++ [PingCall])).

Definition RowsClose (d : DB Conn) : DB Conn :=
  mkDB (conn d) (calls d ++ [RowsCloseCall]).

End Handle.

End sql.

(* ===================================================================== *)
(** * Package [encoding/json]                                             *)
(* ===================================================================== *)

Module json.

(** [json.NewDecoder(body).Decode(&v)] for a destination of type [T]: the
    destination after the call and the error.  A failed decode may leave
    the destination partly filled. *)
Class Decoder (T : Type) : Type := {
  Decode : string → T → T * option error
}.

(** The JSON string literal for a Go string (quotes, escapes). *)
Class StringEncoder : Type := {
  quote : string → string
}.

(** [Marshal] of a slice, given the encoding of an element: a [nil] slice
    is [null], any other slice is an array. *)
Definition MarshalSlice {A : Type} (elem : A → string) (s : slice A) : string :=
  match s with
  | nilSlice => "null"
  | sliceOf l => "[" +:+ String.concat "," (map elem l) +:+ "]"
  end.

(** [json.NewEncoder(w).Encode(v)] writes the encoding and a line feed. *)
Definition Encode (encoding : string) (w : http.ResponseWriter) : http.ResponseWriter :=
  http.Write (encoding +:+ LF) w.

End json.

(* ===================================================================== *)
(** * Package [os]: environment and files                                 *)
(* ===================================================================== *)

Module os.

Abbreviation Environ := (gmap string string).

(** [os.Getenv]: the empty string for an unset variable. *)
Definition Getenv (key : string) (env : Environ) : string :=
  default "" (env !! key).

(** The open flags, with their values on Linux. *)
Definition O_RDONLY : Z := 0.
Definition O_WRONLY : Z := 1.
Definition O_RDWR : Z := 2.
Definition O_CREATE : Z := 64.
Definition O_TRUNC : Z := 512.
Definition O_APPEND : Z := 1024.

(** The working directory: regular files with their content and whether
    the process may write them, and directories. *)
Inductive Node : Type :=
| Regular (data : string) (writable : bool)
| Directory.

Abbreviation FS := (gmap string Node).

(** An open file: its name, the flags it was opened with, and the offset
    of the next write when it is not in append mode. *)
Record File : Type := mkFile {
  fname : string;
  fflag : Z;
  foffset : nat
}.

Definition wantsWrite (flag : Z) : bool :=
  negb (Z.land flag 3 =? O_RDONLY).

Definition OpenFile (name : string) (flag perm : Z) (fs : FS) : (error + File) * FS :=
  match fs !! name with
  | None =>
      if Z.testbit flag 6
      then (inr (mkFile name flag 0), <[name := Regular "" (Z.testbit perm 7)]> fs)
      else (inl ("open " +:+ name +:+ ": no such file or directory"), fs)
  | Some Directory =>
      if wantsWrite flag
      then (inl ("open " +:+ name +:+ ": is a directory"), fs)
      else (inr (mkFile name flag 0), fs)
  | Some (Regular data writable) =>
      if wantsWrite flag && negb writable
      then (inl ("open " +:+ name +:+ ": permission denied"), fs)
      else if Z.testbit flag 9 && wantsWrite flag
      then (inr (mkFile name flag 0), <[name := Regular "" writable]> fs)
      else (inr (mkFile name flag 0), fs)
  end.

(** [os.ReadFile]. *)
Definition ReadFile (name : string) (fs : FS) : error + string :=
  match fs !! name with
  | None => inl ("open " +:+ name +:+ ": no such file or directory")
  | Some Directory => inl ("read " +:+ name +:+ ": is a directory")
  | Some (Regular data _) => inr data
  end.

(** Overwriting [data] from offset [off] on. *)
Definition overwrite (data : string) (off : nat) (p : string) : string :=
  String.substring 0 off data +:+ p
  +:+ String.substring (off + String.length p)
        (String.length data - (off + String.length p)) data.

(** [f.Write(p)]: at the end of the file in append mode, else at the
    file's offset. *)
Definition WriteFile (f : File) (p : string) (fs : FS) : File * FS :=
  match fs !! fname f with
  | Some (Regular data writable) =>
      if Z.testbit (fflag f) 10
      then (f, <[fname f := Regular (data +:+ p) writable]> fs)
      else (mkFile (fname f) (fflag f) (foffset f + String.length p),
            <[fname f := Regular (overwrite data (foffset f) p) writable]> fs)
  | _ => (f, fs)
  end.

End os.

(* ===================================================================== *)
(** * The process, and package [log]                                      *)
(* ===================================================================== *)

(** Where the standard logger writes. *)
Inductive Writer : Type :=
| Stderr
| Stdout
| ToFile (f : os.File).

(** The state [main] runs on.  The logger starts on standard error. *)
Record Process : Type := mkProcess {
  environ : os.Environ;
  disk : os.FS;
  logOutput : Writer;
  stdout : string;
  stderr : string
}.

Definition start (env : os.Environ) (fs : os.FS) : Process :=
  {| environ := env; disk := fs; logOutput := Stderr; stdout := ""; stderr := "" |}.

Module log.

Definition SetOutput (w : Writer) : Go Process unit :=
  modify (λ p, {| environ := environ p; disk := disk p; logOutput := w;
                  stdout := stdout p; stderr := stderr p |}).

(** One log record goes to the current output as a line.  The date and
    time the standard logger puts before the message are left out. *)
Definition output (msg : string) : Go Process unit :=
  modify (λ p,
    match logOutput p with
    | Stderr => {| environ := environ p; disk := disk p; logOutput := Stderr;
                   stdout := stdout p; stderr := stderr p +:+ msg +:+ LF |}
    | Stdout => {| environ := environ p; disk := disk p; logOutput := Stdout;
                   stdout := stdout p +:+ msg +:+ LF; stderr := stderr p |}
    | ToFile f =>
        let '(f', fs') := os.WriteFile f (msg +:+ LF) (disk p) in
        {| environ := environ p; disk := fs'; logOutput := ToFile f';
           stdout := stdout p; stderr := stderr p |}
    end).

Definition Println (msg : string) : Go Process unit := output msg.
Definition Printf (msg : string) : Go Process unit := output msg.

(** [log.Fatal] and [log.Fatalf]: the record, then [os.Exit(1)]. *)
Definition Fatal {A : Type} (msg : string) : Go Process A :=
  (output msg ;;; exit 1)%go.

End log.

(** [fmt.Println] to standard output. *)
Definition fmt_Println (msg : string) : Go Process unit :=
  modify (λ p, {| environ := environ p; disk := disk p; logOutput := logOutput p;
                  stdout := stdout p +:+ msg +:+ LF; stderr := stderr p |}).

(* ===================================================================== *)
(** * Packages [godotenv] and [html/template]                             *)
(* ===================================================================== *)

Module godotenv.

(** The text of an environment file as key/value pairs, or the error for
    a malformed file. *)
Class Parser : Type := {
  Parse : string → error + gmap string string
}.

(** [godotenv.Load(filename)]: read, parse, then set each variable the
    environment does not have yet; a variable already set keeps its value. *)
Definition Load `{Parser} (filename : string) : Go Process (option error) :=
  λ p,
    match os.ReadFile filename (disk p) with
    | inl e => (Val (Some e), p)
    | inr text =>
        match Parse text with
        | inl e => (Val (Some e), p)
        | inr vars =>
            (Val None,
             {| environ := environ p ∪ vars; disk := disk p;
                logOutput := logOutput p; stdout := stdout p; stderr := stderr p |})
        end
    end.

End godotenv.

Module template.

(** Parsing the text of a named template, and executing a parsed template
    on the [nil] data: the text produced and the error, if any (text
    produced before an error has already been written). *)
Class Engine (Template : Type) : Type := {
  parse : string → string → error + Template;
  execute : Template → string * option error
}.

Section Templates.
Context {Template : Type} `{Engine Template}.

Definition ParseFiles (filename : string) (fs : os.FS) : error + Template :=
  match os.ReadFile filename fs with
  | inl e => inl e
  | inr text => parse filename text
  end.

(** [template.Must]: panics on an error. *)
Definition Must {S : Type} (t : error + Template) : Go S Template :=
  match t with
  | inl e => panic e
  | inr tmpl => ret tmpl
  end.

(** [tmpl.Execute(w, nil)]: output reaches [w] only if there is some. *)
Definition Execute (tmpl : Template) (w : http.ResponseWriter)
    : option error * http.ResponseWriter :=
  let '(text, err) := execute tmpl in
  (err, if String.eqb text "" then w else http.Write text w).

End Templates.

End template.

(* ===================================================================== *)
(** * Package [main]                                                      *)
(* ===================================================================== *)

Record Config : Type := mkConfig {
  DBUsername : string;
  DBPassword : string;
  DBHost : string;
  DBPort : string;
  DBName : string
}.

Record User : Type := mkUser {
  ID : Z;
  FirstName : string;
  LastName : string
}.

(** The zero values of [var config Config] and [var user User]. *)
Definition zeroConfig : Config := mkConfig "" "" "" "" "".
Definition zeroUser : User := mkUser 0 "" "".

(** What one request is served on: the response writer, the shared
    database handle, and the files as they are while the handler runs. *)
Record Exchange (Conn : Type) : Type := mkExchange {
  rw : http.ResponseWriter;
  db : sql.DB Conn;
  files : os.FS
}.
Arguments mkExchange {Conn} rw db files.
Arguments rw {Conn} e.
Arguments db {Conn} e.
Arguments files {Conn} e.

(** A call on the response writer, and a call on the database handle. *)
Definition respond {Conn : Type} (f : http.ResponseWriter → http.ResponseWriter)
    : Go (Exchange Conn) unit :=
  modify (λ x, mkExchange (f (rw x)) (db x) (files x)).

Definition onDB {Conn A : Type} (f : sql.DB Conn → A * sql.DB Conn)
    : Go (Exchange Conn) A :=
  λ x, let '(a, d) := f (db x) in (Val a, mkExchange (rw x) d (files x)).

Definition Handler (Conn : Type) : Type := http.Request → Go (Exchange Conn) unit.

Record Route (Conn : Type) : Type := mkRoute {
  routePath : string;
  routeHandler : Handler Conn;
  routeMethod : string
}.
Arguments mkRoute {Conn} routePath routeHandler routeMethod.
Arguments routePath {Conn} r.
Arguments routeHandler {Conn} r.
Arguments routeMethod {Conn} r.

(** What [main] has built when it enters [http.ListenAndServe]. *)
Record Server (Conn : Type) : Type := mkServer {
  Addr : string;
  router : list (Route Conn);
  handle : sql.DB Conn
}.
Arguments mkServer {Conn} Addr router handle.
Arguments Addr {Conn} s.
Arguments router {Conn} s.
Arguments handle {Conn} s.

Section Main.
Context {Conn : Type} `{sql.Driver Conn}.
Context `{json.Decoder User} `{json.StringEncoder}.
Context `{http.FormParser}.
Context `{godotenv.Parser}.
Context {Template : Type} `{template.Engine Template}.

(** ** Logging setup *)

(** The permission argument [0666] is octal, 438. *)
Definition setupFileLogging : Go Process unit :=
  (p <- get ;;
   let '(logFile, fs) :=
     os.OpenFile "app.log"
       (Z.lor (Z.lor os.O_CREATE os.O_WRONLY) os.O_APPEND) 438 (disk p) in
   match logFile with
   | inl err => log.Fatal ("Error opening log file:" +:+ err)
   | inr f =>
       modify (λ p, {| environ := environ p; disk := fs; logOutput := logOutput p;
                       stdout := stdout p; stderr := stderr p |}) ;;;
       log.SetOutput (ToFile f)
   end)%go.

Definition setupStdoutLogging : Go Process unit :=
  log.SetOutput Stdout.

(** The [switch] that opens [main]. *)
Definition main_logging : Go Process unit :=
  (p <- get ;;
   let loggingDestination := os.Getenv "LOG_DESTINATION" (environ p) in
   if String.eqb loggingDestination "file" then setupFileLogging
   else if String.eqb loggingDestination "stdout" then setupStdoutLogging
   else
     log.Println "Invalid logging destination specified. Defaulting to stdout." ;;;
     setupStdoutLogging)%go.

(** ** Configuration and connection *)

Definition loadConfig : Go Process (Config * option error) :=
  (let config := zeroConfig in
   err <- godotenv.Load ".env" ;;
   match err with
   | None =>
       p <- get ;;
       let env := environ p in
       ret (mkConfig (os.Getenv "DB_USERNAME" env) (os.Getenv "DB_PASSWORD" env)
              (os.Getenv "DB_HOST" env) (os.Getenv "DB_PORT" env)
              (os.Getenv "DB_NAME" env),
            None)
   | Some _ => ret (config, None)
   end)%go.

Definition connectDB (config : Config) : error + sql.DB Conn :=
  let connectionString :=
    DBUsername config +:+ ":" +:+ DBPassword config +:+ "@tcp("
    +:+ DBHost config +:+ ":" +:+ DBPort config +:+ ")/" +:+ DBName config in
  match sql.Open "mysql" connectionString with
  | inl err => inl err
  | inr d =>
      let '(err, d) := sql.Ping d in
      match err with
      | Some e => inl e
      | None => inr d
      end
  end.

(** ** Handlers *)

Definition insertQuery : string :=
  "INSERT INTO users (first_name, last_name) VALUES (?, ?)".

Definition selectQuery : string :=
  "SELECT id, first_name, last_name FROM users".

Definition createUserHandler : Handler Conn := λ r,
  (let '(user, err) := json.Decode (http.Body r) zeroUser in
   match err with
   | Some e => respond (http.Error e http.StatusBadRequest)
   | None =>
       err <- onDB (sql.Exec insertQuery [FirstName user; LastName user]) ;;
       match err with
       | Some e => respond (http.Error e http.StatusInternalServerError)
       | None => respond (http.WriteHeader http.StatusCreated)
       end
   end)%go.

(** [User] as [encoding/json] writes it, following the field tags. *)
Definition marshalUser (u : User) : string :=
  "{" +:+ DQ +:+ "id" +:+ DQ +:+ ":" +:+ Itoa (ID u)
  +:+ "," +:+ DQ +:+ "first_name" +:+ DQ +:+ ":" +:+ json.quote (FirstName u)
  +:+ "," +:+ DQ +:+ "last_name" +:+ DQ +:+ ":" +:+ json.quote (LastName u)
  +:+ "}".

(** The loop [for rows.Next() { ... rows.Scan ...; users = append(users, user) }]:
    the first failing [Scan] ends it with that error. *)
Fixpoint scanUsers (rows : list sql.Scanned) (users : slice User) : error + slice User :=
  match rows with
  | [] => inr users
  | inl err :: _ => inl err
  | inr (id, first, last) :: rest => scanUsers rest (append users (mkUser id first last))
  end.

Definition getUsersHandler : Handler Conn := λ r,
  (res <- onDB (sql.Query selectQuery) ;;
   match res with
   | inl err => respond (http.Error err http.StatusInternalServerError)
   | inr rows =>
       (* [var users []User]: the nil slice *)
       match scanUsers rows nilSlice with
       | inl err =>
           respond (http.Error err http.StatusInternalServerError) ;;;
           onDB (λ d, (tt, sql.RowsClose d))
       | inr users =>
           respond (http.Set_ "Content-Type" "application/json") ;;;
           respond (json.Encode (json.MarshalSlice marshalUser users)) ;;;
           onDB (λ d, (tt, sql.RowsClose d))
       end
   end)%go.

Definition showFormHandler : Handler Conn := λ r,
  (x <- get ;;
   tmpl <- template.Must (template.ParseFiles "form.html" (files x)) ;;
   respond (λ w, snd (template.Execute tmpl w)))%go.

Definition createHandler : Handler Conn := λ r,
  (let r := fst (http.ParseForm r) in
   let firstName := http.FormValue "first_name" r in
   let lastName := http.FormValue "last_name" r in
   err <- onDB (sql.Exec insertQuery [firstName; lastName]) ;;
   match err with
   | Some e => respond (http.Error e http.StatusInternalServerError)
   | None => respond (http.Redirect r "/" http.StatusSeeOther)
   end)%go.

Definition healthCheckHandler : Handler Conn := λ r,
  (respond (http.WriteHeader http.StatusOK) ;;;
   respond (http.Fprintln "OK"))%go.

Definition readinessCheckHandler : Handler Conn := λ r,
  (err <- onDB sql.Ping ;;
   match err with
   | Some _ =>
       respond (http.WriteHeader http.StatusServiceUnavailable) ;;;
       respond (http.Fprintln "Database is not available")
   | None =>
       respond (http.WriteHeader http.StatusOK) ;;;
       respond (http.Fprintln "OK")
   end)%go.

(** ** [main] *)

Definition routes : list (Route Conn) :=
  [ mkRoute "/users" createUserHandler "POST";
    mkRoute "/users" getUsersHandler "GET";
    mkRoute "/" showFormHandler "GET";
    mkRoute "/create" createHandler "POST";
    mkRoute "/health" healthCheckHandler "GET";
    mkRoute "/readiness" readinessCheckHandler "GET" ].

(** [main] up to the call of [http.ListenAndServe], which does not return
    while the server runs: the result is the server it starts.  Every way
    out of [main] is a [log.Fatal], which exits without running deferred
    calls, so the deferred [db.Close()] has no effect to model. *)
Definition main : Go Process (Server Conn) :=
  (main_logging ;;;
   log.Println "Starting application" ;;;
   loaded <- loadConfig ;;
   match snd loaded with
   | Some err => log.Fatal ("Error loading config: " +:+ err)
   | None =>
       match connectDB (fst loaded) with
       | inl err => log.Fatal ("Error connecting to database: " +:+ err)
       | inr d =>
           fmt_Println "Connected to MariaDB!" ;;;
           p <- get ;;
           let port := os.Getenv "PORT" (environ p) in
           let port := if String.eqb port "" then "8000" else port in
           log.Printf ("Server listening on port " +:+ port) ;;;
           ret (mkServer (":" +:+ port) routes d)
       end
   end)%go.

(** The server hands each request a fresh response writer. *)
Definition serve (h : Handler Conn) (r : http.Request) (d : sql.DB Conn) (fs : os.FS)
    : Result unit * Exchange Conn :=
  h r (mkExchange http.NewResponseWriter d fs).

End Main.

(** The response a served request ends with. *)
Definition reply {Conn : Type} (res : Result unit * Exchange Conn) : http.Response :=
  http.response (rw (snd res)).

(* ===================================================================== *)
(** * Test doubles                                                        *)
(* ===================================================================== *)

(** Small implementations of the interfaces, on which the program can be
    run.  They are not instances for type class resolution: the theorems
    below hold for every implementation, and a double is passed where a
    concrete run is wanted. *)

Module Double.

(** *** Text helpers *)

Fixpoint stripPrefix (p s : string) : option string :=
  match p, s with
  | EmptyString, _ => Some s
  | String a p', String b s' => if Ascii.eqb a b then stripPrefix p' s' else None
  | String _ _, EmptyString => None
  end.

Fixpoint span (f : ascii → bool) (s : string) : string * string :=
  match s with
  | EmptyString => (EmptyString, EmptyString)
  | String a s' =>
      if f a then let '(l, r) := span f s' in (String a l, r)
      else (EmptyString, s)
  end.

(** [strings.Cut(s, sep)] for a one-byte separator. *)
Definition cut (sep : ascii) (s : string) : string * string * bool :=
  let '(l, r) := span (λ a, negb (Ascii.eqb a sep)) s in
  match r with
  | EmptyString => (l, EmptyString, false)
  | String _ r' => (l, r', true)
  end.

(** [strings.Split(s, sep)] for a one-byte separator. *)
Fixpoint split (sep : ascii) (s : string) : list string :=
  match s with
  | EmptyString => [EmptyString]
  | String a s' =>
      match split sep s' with
      | [] => [EmptyString]
      | x :: xs => if Ascii.eqb a sep then EmptyString :: x :: xs
                   else String a x :: xs
      end
  end.

Definition contains (sub s : string) : bool :=
  match String.index 0 sub s with
  | Some _ => true
  | None => false
  end.

Definition all (f : ascii → bool) (s : string) : bool :=
  forallb f (list_ascii_of_string s).

Definition isDigit (a : ascii) : bool :=
  let n := nat_of_ascii a in (48 <=? n)%nat && (n <=? 57)%nat.

Definition isKeyChar (a : ascii) : bool :=
  let n := nat_of_ascii a in
  isDigit a || ((65 <=? n)%nat && (n <=? 90)%nat)
  || ((97 <=? n)%nat && (n <=? 122)%nat)
  || Ascii.eqb a "_" || Ascii.eqb a ".".

(** *** A database in memory *)

Record MemDB : Type := mkMemDB {
  reachable : bool;
  users : list User;
  nextID : Z
}.

Definition closed : error := "sql: database is closed".

(** The double knows the two statements of the program: an [Exec] with
    two arguments inserts them under the next id, a [Query] lists the
    table. *)
Definition memDriver : sql.Driver MemDB :=
  {| sql.driverOpen name dsn :=
       if String.eqb name "mysql" then inr (mkMemDB true [] 1)
       else inl ("sql: unknown driver " +:+ name);
     sql.driverExec query args c :=
       if reachable c then
         match args with
         | [first; last] =>
             (None, mkMemDB true (users c ++ [mkUser (nextID c) first last]) (nextID c + 1))
         | _ => (Some "sql: expected 2 arguments", c)
         end
       else (Some closed, c);
     sql.driverQuery query c :=
       if reachable c
       then (inr (map (λ u, inr (ID u, FirstName u, LastName u)) (users c)), c)
       else (inl closed, c);
     sql.driverPing c :=
       if reachable c then (None, c) else (Some closed, c) |}.

Definition emptyDB : sql.DB MemDB := sql.mkDB (mkMemDB true [] 1) [].
Definition brokenDB : sql.DB MemDB := sql.mkDB (mkMemDB false [] 1) [].

(** *** JSON *)

(** Strings are quoted without escapes. *)
Definition plainQuote : json.StringEncoder :=
  {| json.quote s := DQ +:+ s +:+ DQ |}.

Definition syntaxError : error := "invalid character in JSON text".

(** The decoder reads exactly the text [marshalUser] writes with
    [plainQuote] (for an id that is not negative), and rejects anything
    else; the empty body is [EOF]. *)
Definition decodeUser (body : string) (dest : User) : User * option error :=
  if String.eqb body "" then (dest, Some "EOF") else
  match stripPrefix ("{" +:+ DQ +:+ "id" +:+ DQ +:+ ":") body with
  | None => (dest, Some syntaxError)
  | Some s1 =>
      let '(digits, s2) := span isDigit s1 in
      match NilZero.uint_of_string digits,
            stripPrefix ("," +:+ DQ +:+ "first_name" +:+ DQ +:+ ":" +:+ DQ) s2 with
      | Some n, Some s3 =>
          let '(first, s4, _) := cut (ascii_of_nat 34) s3 in
          match stripPrefix ("," +:+ DQ +:+ "last_name" +:+ DQ +:+ ":" +:+ DQ) s4 with
          | Some s5 =>
              let '(last, s6, _) := cut (ascii_of_nat 34) s5 in
              if String.eqb s6 "}"
              then (mkUser (Z.of_uint n) first last, None)
              else (dest, Some syntaxError)
          | None => (dest, Some syntaxError)
          end
      | _, _ => (dest, Some syntaxError)
      end
  end.

Definition userDecoder : json.Decoder User :=
  {| json.Decode := decodeUser |}.

(** *** Forms *)

(** [url.ParseQuery] on pairs that need no unescaping; a pair with [%],
    [+] or [;] is dropped and reported. *)
Fixpoint parsePairs (pairs : list string) (vs : http.Values) : http.Values * option error :=
  match pairs with
  | [] => (vs, None)
  | kv :: rest =>
      if contains ";" kv then
        (fst (parsePairs rest vs), Some "invalid semicolon separator in query")
      else if String.eqb kv "" then parsePairs rest vs
      else if contains "%" kv || contains "+" kv then
        (fst (parsePairs rest vs), Some "invalid URL escape")
      else
        let '(key, value, _) := cut "=" kv in
        parsePairs rest (<[key := (default [] (vs !! key) ++ [value])%list]> vs)
  end.

Definition firstError (a b : option error) : option error :=
  match a with
  | Some _ => a
  | None => b
  end.

(** Body fields first, then the fields of the query string. *)
Definition formParser : http.FormParser :=
  {| http.parseForm r :=
       let '(posted, err1) := parsePairs (split "&" (http.Body r)) ∅ in
       let '(vs, err2) := parsePairs (split "&" (http.RawQuery r)) posted in
       (vs, firstError err1 err2) |}.

(** *** Environment files *)

(** Lines [KEY=VALUE] with a key over letters, digits, [_] and [.], taken
    literally; any other byte in a key is an error, as in [godotenv]. *)
Fixpoint parseLines (lines : list string) (vars : gmap string string)
    : error + gmap string string :=
  match lines with
  | [] => inr vars
  | line :: rest =>
      if String.eqb line "" then parseLines rest vars
      else
        let '(key, value, found) := cut "=" line in
        if all isKeyChar key && found
        then parseLines rest (<[key := value]> vars)
        else inl ("unexpected character in variable name near " +:+ line)
  end.

Definition dotenvParser : godotenv.Parser :=
  {| godotenv.Parse text := parseLines (split (ascii_of_nat 10) text) ∅ |}.

(** *** Templates *)

(** Static templates only: a text with no action is its own output, and a
    text that opens an action is rejected. *)
Definition staticEngine : template.Engine string :=
  {| template.parse name text :=
       if contains "{{" text
       then inl ("template: " +:+ name +:+ ":1: unclosed action")
       else inr text;
     template.execute tmpl := (tmpl, None) |}.

(** *** The program on the doubles *)

Definition postUsers : Handler MemDB :=
  @createUserHandler MemDB memDriver userDecoder.
Definition listUsers : Handler MemDB :=
  @getUsersHandler MemDB memDriver plainQuote.
Definition showForm : Handler MemDB :=
  @showFormHandler MemDB string staticEngine.
Definition postCreate : Handler MemDB :=
  @createHandler MemDB memDriver formParser.
Definition health : Handler MemDB :=
  @healthCheckHandler MemDB.
Definition readiness : Handler MemDB :=
  @readinessCheckHandler MemDB memDriver.
Definition config : Go Process (Config * option error) :=
  @loadConfig dotenvParser.
Definition logging : Go Process unit := main_logging.
Definition boot : Go Process (Server MemDB) :=
  @main MemDB memDriver userDecoder plainQuote formParser dotenvParser string staticEngine.

Definition GET (path : string) : http.Request :=
  http.mkRequest "GET" path "" "" "" None.

Definition POST (path contentType body : string) : http.Request :=
  http.mkRequest "POST" path "" contentType body None.

Definition formType : string := "application/x-www-form-urlencoded".

Definition adaBody : string :=
  "{" +:+ DQ +:+ "id" +:+ DQ +:+ ":7," +:+ DQ +:+ "first_name" +:+ DQ +:+ ":"
  +:+ DQ +:+ "Ada" +:+ DQ +:+ "," +:+ DQ +:+ "last_name" +:+ DQ +:+ ":"
  +:+ DQ +:+ "Lovelace" +:+ DQ +:+ "}".

End Double.

(** *** Inputs for concrete runs *)

Module Run.

(** A process whose environment names a database user, beside an
    environment file that is present and malformed. *)
Definition malformedEnv : Process :=
  start (<["DB_USERNAME" := "root"]> ∅) (<[".env" := os.Regular "!" true]> ∅).

(** A process with a well-formed environment file. *)
Definition goodEnv : Process :=
  start (<["DB_HOST" := "localhost"]> ∅)
    (<[".env" := os.Regular ("DB_HOST=db" +:+ LF +:+ "DB_NAME=app" +:+ LF) true]> ∅).

(** A directory where [app.log] exists and may not be written. *)
Definition readOnlyLog : os.FS := <["app.log" := os.Regular ("old" +:+ LF) false]> ∅.

(** A directory holding a static form. *)
Definition withForm : os.FS := <["form.html" := os.Regular "<form></form>" true]> ∅.

End Run.

(** *** Startup and [form.html] *)

(** The process with [form.html] taken away, and the processes whose
    logger does not write to that file. *)
Definition withoutForm (p : Process) : Process :=
  mkProcess (environ p) (delete "form.html" (disk p)) (logOutput p) (stdout p) (stderr p).

Definition logsElsewhere (p : Process) : Prop :=
  match logOutput p with
  | ToFile f => os.fname f ≠ "form.html"
  | _ => True
  end.

(** A computation is blind to [form.html] when taking the file away
    changes neither its result nor anything else of the state it leaves. *)
Definition blind {A : Type} (m : Go Process A) : Prop :=
  ∀ p : Process, logsElsewhere p →
    m (withoutForm p) = (fst (m p), withoutForm (snd (m p)))
    ∧ logsElsewhere (snd (m p)).

Definition warning : string :=
  "Invalid logging destination specified. Defaulting to stdout.".

(** The [User] a scanned row fills. *)
Definition rowUser (row : Z * string * string) : User :=
  let '(id, first, last) := row in mkUser id first last.

Definition logFlags : Z := Z.lor (Z.lor os.O_CREATE os.O_WRONLY) os.O_APPEND.

(** *** Vocabulary for the database traffic and for startup *)

(** The data source name [connectDB] formats from a configuration. *)
Definition dataSourceName (config : Config) : string :=
  DBUsername config +:+ ":" +:+ DBPassword config +:+ "@tcp("
  +:+ DBHost config +:+ ":" +:+ DBPort config +:+ ")/" +:+ DBName config.

(** A call whose SQL text, if it has one, is one of the two constant
    statements of the program. *)
Definition fixedStatement (c : sql.Call) : Prop :=
  match c with
  | sql.ExecCall query _ => query = insertQuery
  | sql.QueryCall query => query = selectQuery
  | sql.PingCall => True
  | sql.RowsCloseCall => True
  end.

(** The calls that reach the server: everything but closing a result set. *)
Definition roundTrip (c : sql.Call) : bool :=
  match c with
  | sql.RowsCloseCall => false
  | _ => true
  end.

Definition roundTrips (cs : list sql.Call) : nat := length (List.filter roundTrip cs).

(** A computation started in a state that satisfies [P] ends, whichever
    way it ends, with a result and a state that satisfy [Q]. *)
Definition triple {A : Type} (P : Process → Prop) (m : Go Process A)
    (Q : Result A → Process → Prop) : Prop :=
  ∀ p : Process, P p → Q (fst (m p)) (snd (m p)).

(** Postconditions: the state satisfies [I] however the computation ends;
    and: the computation returns a value that satisfies [Q], or exits
    with status 1, and does not panic. *)
Definition always {A : Type} (I : Process → Prop) : Result A → Process → Prop :=
  λ _ p, I p.

Definition orExits {A : Type} (Q : A → Process → Prop) : Result A → Process → Prop :=
  λ r p,
    match r with
    | Val a => Q a p
    | Panic _ => False
    | Exit code => code = 1
    end.

(** The environment once [godotenv.Load] has run on the files [fs]. *)
Definition loadedEnv `{godotenv.Parser} (env : os.Environ) (fs : os.FS) : os.Environ :=
  match os.ReadFile ".env" fs with
  | inl _ => env
  | inr text =>
      match godotenv.Parse text with
      | inl _ => env
      | inr vars => env ∪ vars
      end
  end.

(** Before the load: the environment is still [env], [.env] is as in
    [fs], and the logger writes to a standard stream or to [app.log]. *)
Definition beforeLoad (env : os.Environ) (fs : os.FS) (p : Process) : Prop :=
  environ p = env
  ∧ disk p !! ".env" = fs !! ".env"
  ∧ match logOutput p with
    | ToFile f => os.fname f = "app.log"
    | _ => True
    end.

(** Closing the goal once the new calls of a handler run are known. *)
Ltac new_calls cs :=
  exists cs; split_and!;
  [ now rewrite ?app_nil_r
  | repeat constructor
  | unfold roundTrips; simpl; lia
  | reflexivity ].

(** The state in which the logger writes to standard output, [se] is all
    that standard error has received and the files are [fs]. *)
Definition onStdout (se : string) (fs : os.FS) (p : Process) : Prop :=
  logOutput p = Stdout ∧ stderr p = se ∧ disk p = fs.

(** The state in which the logger appends to [app.log], which still
    starts with [data], and standard error has received [se]. *)
Definition appending (data se : string) (p : Process) : Prop :=
  logOutput p = ToFile (os.mkFile "app.log" logFlags 0)
  ∧ stderr p = se
  ∧ ∃ more : string, disk p !! "app.log" = Some (os.Regular (data +:+ more) true).

(** The address [main] listens on when the environment is [env]. *)
Definition listenAddr (env : os.Environ) : string :=
  ":" +:+ (if String.eqb (os.Getenv "PORT" env) "" then "8000" else os.Getenv "PORT" env).

(** A field of the configuration after a successful load: the process
    environment first, then the file, then the empty string. *)
Definition envThenFile (env vars : os.Environ) (key : string) : string :=
  match env !! key with
  | Some v => v
  | None => default "" (vars !! key)
  end.

(** A driver double whose server is down: opening succeeds, as
    [sql.Open] does not dial, and every later call fails. *)
Definition downDriver : sql.Driver Double.MemDB :=
  {| sql.driverOpen name dsn := inr (Double.mkMemDB false [] 1);
     sql.driverExec := @sql.driverExec _ Double.memDriver;
     sql.driverQuery := @sql.driverQuery _ Double.memDriver;
     sql.driverPing := @sql.driverPing _ Double.memDriver |}.

Definition connectDown : Config → error + sql.DB Double.MemDB :=
  @connectDB Double.MemDB downDriver.

(** A result set whose second row does not convert. *)
Definition badRows : list sql.Scanned :=
  [inr (1, "Ada", "Lovelace"); inl "sql: Scan error on column index 0"; inr (3, "Alan", "Turing")].

(** A driver double that answers every query with [badRows]. *)
Definition badRowsDriver : sql.Driver Double.MemDB :=
  {| sql.driverOpen := @sql.driverOpen _ Double.memDriver;
     sql.driverExec := @sql.driverExec _ Double.memDriver;
     sql.driverQuery query c := (inr badRows, c);
     sql.driverPing := @sql.driverPing _ Double.memDriver |}.

Definition listUsersBadRows : Handler Double.MemDB :=
  @getUsersHandler Double.MemDB badRowsDriver Double.plainQuote.

(** A database double holding two users. *)
Definition twoUsersDB : sql.DB Double.MemDB :=
  sql.mkDB (Double.mkMemDB true [mkUser 1 "Ada" "Lovelace"; mkUser 2 "Alan" "Turing"] 3) [].

(** A template engine double whose templates stop with an error after
    producing some text. *)
Definition failingEngine : template.Engine string :=
  {| template.parse name text := inr text;
     template.execute tmpl := (tmpl, Some "template: execution failed") |}.

Definition showFormFailing : Handler Double.MemDB :=
  @showFormHandler Double.MemDB string failingEngine.

(** A directory whose [.env] asks for file logging. *)
Definition fileInDotenv : os.FS :=
  <[".env" := os.Regular "LOG_DESTINATION=file" true]> ∅.

(** The route table on the doubles. *)
Definition doubleRoutes : list (Route Double.MemDB) :=
  @routes Double.MemDB Double.memDriver Double.userDecoder Double.plainQuote
    Double.formParser string Double.staticEngine.

(** Environments that choose a log destination, a directory whose
    [app.log] may be written, and one whose [.env] sets the port. *)
Definition stdoutEnv : os.Environ := <["LOG_DESTINATION" := "stdout"]> ∅.
Definition fileEnv : os.Environ := <["LOG_DESTINATION" := "file"]> ∅.
Definition writableLog : os.FS := <["app.log" := os.Regular ("old" +:+ LF) true]> ∅.
Definition portFiles : os.FS := <[".env" := os.Regular "PORT=9000" true]> ∅.

(** Unfolding one handler run down to the library calls. *)
Ltac run_handler :=
  unfold reply, serve, createUserHandler, getUsersHandler, createHandler,
    healthCheckHandler, readinessCheckHandler, showFormHandler,
    bind, ret, get, modify, respond, onDB, panic,
    sql.Exec, sql.Query, sql.Ping, sql.RowsClose;
  simpl.

(** Unfolding a step of [main] down to the library calls. *)
Ltac run_main :=
  unfold main_logging, setupFileLogging, setupStdoutLogging, loadConfig,
    log.Fatal, log.Println, log.Printf, log.SetOutput, log.output, godotenv.Load,
    bind, ret, get, modify, exit, start;
  simpl.

(* ===================================================================== *)
(** * Properties                                                          *)
(* ===================================================================== *)

(** ** The response writer *)

Lemma response_Error (err : string) (code : Z) :
  http.bodyAllowedForStatus code = true →
  http.response (http.Error err code http.NewResponseWriter)
  = http.mkResponse code http.errorHeaders (err +:+ LF).
Proof.
  intros Hok.
  unfold http.Error, http.Fprintln, http.Write, http.WriteHeader, http.Set_, http.Del; simpl.
  rewrite Hok; simpl. unfold http.response; simpl.
  rewrite delete_empty. reflexivity.
Qed.

Section Properties.
Context {Conn : Type} {driver : sql.Driver Conn}.
Context {decoder : json.Decoder User} {encoder : json.StringEncoder}.
Context {forms : http.FormParser}.
Context {dotenv : godotenv.Parser}.
Context {Template : Type} {engine : template.Engine Template}.

(** ** GET /health *)

(** C5, as amended: for every request and every state of the database,
    [healthCheckHandler] returns normally, the response is 200 with the
    body ["OK"] followed by a line feed, and the database handle is left
    exactly as it was: no statement is run on it. *)
Theorem healthCheckHandler_ok (r : http.Request) (d : sql.DB Conn) (fs : os.FS) :
  fst (serve healthCheckHandler r d fs) = Val tt
  ∧ reply (serve healthCheckHandler r d fs) = http.mkResponse 200 ∅ ("OK" +:+ LF)
  ∧ db (snd (serve healthCheckHandler r d fs)) = d.
Proof. run_handler. split_and!; reflexivity. Qed.

(** ** GET /readiness *)

(** C4, as amended: [readinessCheckHandler] pings the handle once and
    returns normally whatever the ping answers; the response is 200 with
    body ["OK"] and a line feed exactly when the ping succeeds, and 503
    with body ["Database is not available"] and a line feed exactly when
    it fails. *)
Theorem readinessCheckHandler_ping (r : http.Request) (d : sql.DB Conn) (fs : os.FS)
    (err : option error) (c : Conn) :
  sql.driverPing (sql.conn d) = (err, c) →
  fst (serve readinessCheckHandler r d fs) = Val tt
  ∧ db (snd (serve readinessCheckHandler r d fs))
    = sql.mkDB c (sql.calls d ++ [sql.PingCall])
  ∧ reply (serve readinessCheckHandler r d fs)
    = match err with
      | None => http.mkResponse 200 ∅ ("OK" +:+ LF)
      | Some _ => http.mkResponse 503 ∅ ("Database is not available" +:+ LF)
      end
  ∧ (http.Status (reply (serve readinessCheckHandler r d fs)) = 200 ↔ err = None)
  ∧ (http.Status (reply (serve readinessCheckHandler r d fs)) = 503 ↔ err ≠ None).
Proof.
  intros Hping. run_handler. rewrite Hping.
  destruct err as [e|]; simpl; split_and!; try reflexivity;
    split; intros Hs; try discriminate; try reflexivity; congruence.
Qed.

(** ** POST /users *)

(** C2: when the body does not decode into a [User], [createUserHandler]
    answers 400 with the decoder's error text and leaves the database
    handle exactly as it was: no statement is run, no row is inserted. *)
Theorem createUserHandler_bad_body (r : http.Request) (d : sql.DB Conn) (fs : os.FS)
    (u : User) (e : error) :
  json.Decode (http.Body r) zeroUser = (u, Some e) →
  fst (serve createUserHandler r d fs) = Val tt
  ∧ reply (serve createUserHandler r d fs)
    = http.mkResponse 400 http.errorHeaders (e +:+ LF)
  ∧ db (snd (serve createUserHandler r d fs)) = d.
Proof.
  intros Hdec. run_handler. rewrite Hdec. run_handler.
  split_and!; [reflexivity | apply (response_Error e 400); reflexivity | reflexivity].
Qed.

(** C3: when the body decodes into [u], [createUserHandler] runs exactly
    one statement, [INSERT INTO users (first_name, last_name) VALUES (?, ?)]
    with [u]'s first and last name as its two arguments; the response is
    201 with an empty body when the insert succeeds and 500 with the
    insert's error text when it fails.  The id of the payload plays no
    part: a body that decodes to the same names under another id is
    served identically. *)
Theorem createUserHandler_insert (r : http.Request) (d : sql.DB Conn) (fs : os.FS)
    (u : User) (err : option error) (c : Conn) :
  json.Decode (http.Body r) zeroUser = (u, None) →
  sql.driverExec "INSERT INTO users (first_name, last_name) VALUES (?, ?)"
    [FirstName u; LastName u] (sql.conn d) = (err, c) →
  fst (serve createUserHandler r d fs) = Val tt
  ∧ db (snd (serve createUserHandler r d fs))
    = sql.mkDB c
        (sql.calls d
         ++ [sql.ExecCall "INSERT INTO users (first_name, last_name) VALUES (?, ?)"
               [FirstName u; LastName u]])
  ∧ reply (serve createUserHandler r d fs)
    = match err with
      | None => http.mkResponse 201 ∅ ""
      | Some e => http.mkResponse 500 http.errorHeaders (e +:+ LF)
      end
  ∧ ∀ (r' : http.Request) (u' : User),
      json.Decode (http.Body r') zeroUser = (u', None) →
      FirstName u' = FirstName u → LastName u' = LastName u →
      serve createUserHandler r' d fs = serve createUserHandler r d fs.
Proof.
  intros Hdec Hexec.
  change "INSERT INTO users (first_name, last_name) VALUES (?, ?)" with insertQuery in Hexec.
  run_handler. rewrite Hdec. run_handler. rewrite Hexec.
  split_and!.
  - now destruct err.
  - now destruct err.
  - destruct err as [e|]; [apply (response_Error e 500) |]; reflexivity.
  - intros r' u' Hdec' Hfirst Hlast. rewrite Hdec'. run_handler.
    rewrite Hfirst, Hlast, Hexec. reflexivity.
Qed.

(** ** GET /users *)

Lemma scanUsers_backed (rows : list (Z * string * string)) (l : list User) :
  scanUsers (map inr rows) (sliceOf l) = inr (sliceOf (l ++ map rowUser rows)).
Proof.
  revert l. induction rows as [|[[id first] last] rows IH]; intros l; simpl.
  - now rewrite app_nil_r.
  - rewrite IH, <- app_assoc. reflexivity.
Qed.

Lemma scanUsers_nil (rows : list (Z * string * string)) :
  scanUsers (map inr rows) nilSlice
  = inr (match rows with
         | [] => nilSlice
         | _ :: _ => sliceOf (map rowUser rows)
         end).
Proof.
  destruct rows as [|[[id first] last] rows]; simpl; [reflexivity |].
  apply scanUsers_backed.
Qed.

(** With at least one row, all of them scanned, the body is a JSON array
    of the users in row order. *)
Lemma getUsersHandler_some_rows (r : http.Request) (d : sql.DB Conn) (fs : os.FS)
    (row : Z * string * string) (rows : list (Z * string * string)) (c : Conn) :
  sql.driverQuery selectQuery (sql.conn d) = (inr (map inr (row :: rows)), c) →
  reply (serve getUsersHandler r d fs)
  = http.mkResponse 200 (<["Content-Type" := ["application/json"]]> ∅)
      (("[" +:+ String.concat "," (map marshalUser (map rowUser (row :: rows))) +:+ "]")
       +:+ LF).
Proof.
  intros Hq. unfold reply, serve, getUsersHandler, bind, onDB, sql.Query.
  cbn [db rw]. rewrite Hq, scanUsers_nil. reflexivity.
Qed.

(** C1, what the code does: when the query succeeds with no rows,
    [getUsersHandler] answers 200 with content type [application/json],
    and the body is the JSON text [null] and a line feed, not the empty
    array: [users] is still the nil slice when it is encoded. *)
Theorem getUsersHandler_no_rows (r : http.Request) (d : sql.DB Conn) (fs : os.FS)
    (c : Conn) :
  sql.driverQuery selectQuery (sql.conn d) = (inr [], c) →
  fst (serve getUsersHandler r d fs) = Val tt
  ∧ reply (serve getUsersHandler r d fs)
    = http.mkResponse 200 (<["Content-Type" := ["application/json"]]> ∅) ("null" +:+ LF)
  ∧ http.Content (reply (serve getUsersHandler r d fs)) ≠ "[]" +:+ LF.
Proof.
  intros Hq. run_handler. rewrite Hq. run_handler.
  split_and!; [reflexivity | reflexivity | discriminate].
Qed.

(** ** POST /create *)

Lemma ParseForm_fresh (r : http.Request) (vs : http.Values) (perr : option error) :
  http.Form r = None →
  http.parseForm r = (vs, perr) →
  http.Form (fst (http.ParseForm r)) = Some vs
  ∧ http.Method (fst (http.ParseForm r)) = http.Method r.
Proof.
  intros Hnil Hparse. unfold http.ParseForm. rewrite Hnil, Hparse. split; reflexivity.
Qed.

Lemma FormValue_parsed (r : http.Request) (vs : http.Values) (perr : option error)
    (key : string) :
  http.Form r = None →
  http.parseForm r = (vs, perr) →
  http.FormValue key (fst (http.ParseForm r)) = http.Get key vs.
Proof.
  intros Hnil Hparse.
  destruct (ParseForm_fresh r vs perr Hnil Hparse) as [Hform _].
  unfold http.FormValue. rewrite Hform. cbv zeta. rewrite Hform. reflexivity.
Qed.

Lemma Get_missing (key : string) (vs : http.Values) :
  vs !! key = None → http.Get key vs = "".
Proof. intros Hkey. unfold http.Get. rewrite Hkey. reflexivity. Qed.

Lemma response_Redirect_post (r : http.Request) (url : string) (code : Z) :
  http.Method r = "POST" →
  http.response (http.Redirect r url code http.NewResponseWriter)
  = http.mkResponse code (<["Location" := [url]]> ∅) "".
Proof.
  intros Hpost. unfold http.Redirect. rewrite Hpost. reflexivity.
Qed.


(** C6: a POST to /create, whose form parses to the values [vs] (with or
    without a parse error), reads [first_name] and [last_name] from [vs],
    a missing field reading as the empty string; [createHandler] runs
    exactly one statement,
    [INSERT INTO users (first_name, last_name) VALUES (?, ?)] with those
    two values as its arguments; it answers 500 with the error text when
    the insert fails, and otherwise 303 with [Location: /] and no body. *)
Theorem createHandler_form (r : http.Request) (d : sql.DB Conn) (fs : os.FS)
    (vs : http.Values) (perr err : option error) (c : Conn) :
  http.Method r = "POST" →
  http.Form r = None →
  http.parseForm r = (vs, perr) →
  sql.driverExec "INSERT INTO users (first_name, last_name) VALUES (?, ?)"
    [http.Get "first_name" vs; http.Get "last_name" vs] (sql.conn d) = (err, c) →
  (∀ key : string, vs !! key = None → http.Get key vs = "")
  ∧ fst (serve createHandler r d fs) = Val tt
  ∧ db (snd (serve createHandler r d fs))
    = sql.mkDB c
        (sql.calls d
         ++ [sql.ExecCall "INSERT INTO users (first_name, last_name) VALUES (?, ?)"
               [http.Get "first_name" vs; http.Get "last_name" vs]])
  ∧ reply (serve createHandler r d fs)
    = match err with
      | Some e => http.mkResponse 500 http.errorHeaders (e +:+ LF)
      | None => http.mkResponse 303 (<["Location" := ["/"]]> ∅) ""
      end.
Proof.
  intros Hpost Hnil Hparse Hexec.
  change "INSERT INTO users (first_name, last_name) VALUES (?, ?)" with insertQuery in Hexec.
  destruct (ParseForm_fresh r vs perr Hnil Hparse) as [_ Hmeth].
  run_handler.
  rewrite !(FormValue_parsed r vs perr) by assumption. rewrite Hexec.
  split_and!.
  - intros key. apply Get_missing.
  - now destruct err.
  - now destruct err.
  - destruct err as [e|]; simpl.
    + apply (response_Error e 500). reflexivity.
    + apply response_Redirect_post. now rewrite Hmeth.
Qed.


(** ** GET / *)

(** The three ways a run of [showFormHandler] can go, by what
    [form.html] is when the request is served. *)
Lemma showFormHandler_runs (r : http.Request) (d : sql.DB Conn) (fs : os.FS) :
  (fs !! "form.html" = None →
     serve showFormHandler r d fs
     = (Panic "open form.html: no such file or directory",
        mkExchange http.NewResponseWriter d fs))
  ∧ (∀ (text : string) (wr : bool) (e : error),
       fs !! "form.html" = Some (os.Regular text wr) →
       template.parse "form.html" text = inl e →
       serve showFormHandler r d fs = (Panic e, mkExchange http.NewResponseWriter d fs))
  ∧ (∀ (text : string) (wr : bool) (t : Template),
       fs !! "form.html" = Some (os.Regular text wr) →
       template.parse "form.html" text = inr t →
       serve showFormHandler r d fs
       = (Val tt, mkExchange (snd (template.Execute t http.NewResponseWriter)) d fs)
       ∧ serve showFormHandler r d (delete "form.html" fs)
         = (Panic "open form.html: no such file or directory",
            mkExchange http.NewResponseWriter d (delete "form.html" fs))).
Proof.
  split_and!.
  - intros Hnone. run_handler. unfold template.ParseFiles, os.ReadFile.
    rewrite Hnone. reflexivity.
  - intros text wr e Hfile Hparse. run_handler.
    unfold template.ParseFiles, os.ReadFile. rewrite Hfile, Hparse. reflexivity.
  - intros text wr t Hfile Hparse. split.
    + run_handler. unfold template.ParseFiles, os.ReadFile.
      rewrite Hfile, Hparse. reflexivity.
    + run_handler. unfold template.ParseFiles, os.ReadFile.
      rewrite lookup_delete_eq. reflexivity.
Qed.

(** ** Configuration *)

(** C7, as amended: [loadConfig] returns normally with a [nil] error on
    every process state.  When [.env] cannot be read (it is absent, in
    particular) or its text does not parse, the configuration is the zero
    value and the environment is untouched; when it loads, each variable
    of the file that the environment lacks is set, and the five fields
    are what [DB_USERNAME], [DB_PASSWORD], [DB_HOST], [DB_PORT] and
    [DB_NAME] then hold. *)
Theorem loadConfig_total (p : Process) :
  ∃ (cfg : Config) (p' : Process),
    loadConfig p = (Val (cfg, None), p')
    ∧ (disk p !! ".env" = None → cfg = zeroConfig ∧ p' = p)
    ∧ match os.ReadFile ".env" (disk p) with
      | inl _ => cfg = zeroConfig ∧ p' = p
      | inr text =>
          match godotenv.Parse text with
          | inl _ => cfg = zeroConfig ∧ p' = p
          | inr vars =>
              p' = mkProcess (environ p ∪ vars) (disk p) (logOutput p) (stdout p) (stderr p)
              ∧ cfg = mkConfig (os.Getenv "DB_USERNAME" (environ p'))
                        (os.Getenv "DB_PASSWORD" (environ p'))
                        (os.Getenv "DB_HOST" (environ p'))
                        (os.Getenv "DB_PORT" (environ p'))
                        (os.Getenv "DB_NAME" (environ p'))
          end
      end.
Proof.
  run_main. unfold os.ReadFile.
  destruct (disk p !! ".env") as [[text wr|]|] eqn:Hfile.
  - destruct (godotenv.Parse text) as [e|vars]; simpl.
    + exists zeroConfig, p.
      split; [reflexivity |]. split; [intros Habsent; discriminate Habsent |].
      split; reflexivity.
    + eexists _, _.
      split; [reflexivity |]. split; [intros Habsent; discriminate Habsent |].
      split; reflexivity.
  - exists zeroConfig, p.
    split; [reflexivity |]. split; [intros Habsent; discriminate Habsent |].
    split; reflexivity.
  - exists zeroConfig, p.
    split; [reflexivity |]. split; [intros _ |]; split; reflexivity.
Qed.

(** ** Logging setup *)

Lemma OpenFile_handle (name : string) (flag perm : Z) (fs fs' : os.FS) (f : os.File) :
  os.OpenFile name flag perm fs = (inr f, fs') → f = os.mkFile name flag 0.
Proof.
  unfold os.OpenFile. intros Hopen.
  destruct (fs !! name) as [[data wr|]|];
    repeat match type of Hopen with
           | context [if ?b then _ else _] => destruct b
           end; congruence.
Qed.

(** C8: the [switch] that opens [main], run on a starting process.
    With [LOG_DESTINATION=file] it opens [app.log] write-only with the
    create and append flags; if the open fails the process logs the error
    and exits with status 1; if it succeeds the logger writes to that
    file: a file that was absent is created empty, an existing one keeps
    its content, and a later record goes after the content; a failed
    open ends [main] as a whole.  With
    [LOG_DESTINATION=stdout] the logger writes to standard output.  With
    any other value, or none, the warning is logged (on the logger's
    initial output, standard error) and the logger then writes to
    standard output. *)
Theorem main_logging_destinations (env : os.Environ) (fs : os.FS) :
  (os.Getenv "LOG_DESTINATION" env = "file" →
     ∀ (res : error + os.File) (fs' : os.FS),
       os.OpenFile "app.log" logFlags 438 fs = (res, fs') →
       match res with
       | inl e =>
           main_logging (start env fs)
           = (Exit 1, mkProcess env fs Stderr "" ("Error opening log file:" +:+ e +:+ LF))
           ∧ main (start env fs)
             = (Exit 1, mkProcess env fs Stderr "" ("Error opening log file:" +:+ e +:+ LF))
       | inr f =>
           main_logging (start env fs) = (Val tt, mkProcess env fs' (ToFile f) "" "")
           ∧ os.fname f = "app.log"
           ∧ Z.land (os.fflag f) 3 = os.O_WRONLY
           ∧ Z.land (os.fflag f) os.O_CREATE = os.O_CREATE
           ∧ Z.land (os.fflag f) os.O_APPEND = os.O_APPEND
           ∧ (fs !! "app.log" = None → fs' = <["app.log" := os.Regular "" true]> fs)
           ∧ (is_Some (fs !! "app.log") → fs' = fs)
           ∧ (∀ (msg data : string) (wr : bool),
                fs' !! "app.log" = Some (os.Regular data wr) →
                log.Println msg (mkProcess env fs' (ToFile f) "" "")
                = (Val tt,
                   mkProcess env (<["app.log" := os.Regular (data +:+ msg +:+ LF) wr]> fs')
                     (ToFile f) "" ""))
       end)
  ∧ (os.Getenv "LOG_DESTINATION" env = "stdout" →
       main_logging (start env fs) = (Val tt, mkProcess env fs Stdout "" ""))
  ∧ (os.Getenv "LOG_DESTINATION" env ≠ "file" →
     os.Getenv "LOG_DESTINATION" env ≠ "stdout" →
       main_logging (start env fs)
       = (Val tt, mkProcess env fs Stdout "" (warning +:+ LF)))
  ∧ (env !! "LOG_DESTINATION" = None →
       main_logging (start env fs)
       = (Val tt, mkProcess env fs Stdout "" (warning +:+ LF))).
Proof.
  assert (Hother : os.Getenv "LOG_DESTINATION" env ≠ "file" →
                   os.Getenv "LOG_DESTINATION" env ≠ "stdout" →
                   main_logging (start env fs)
                   = (Val tt, mkProcess env fs Stdout "" (warning +:+ LF))).
  { intros Hfile Hstdout. run_main.
    apply String.eqb_neq in Hfile, Hstdout. rewrite Hfile, Hstdout. reflexivity. }
  split_and!.
  - intros Hdest res fs' Hopen. run_main. rewrite Hdest. simpl.
    change (Z.lor (Z.lor os.O_CREATE os.O_WRONLY) os.O_APPEND) with logFlags.
    rewrite Hopen. destruct res as [e|f]; simpl.
    + split; [reflexivity |].
      unfold main at 1. unfold bind at 1. run_main. rewrite Hdest. simpl.
      change (Z.lor (Z.lor os.O_CREATE os.O_WRONLY) os.O_APPEND) with logFlags.
      rewrite Hopen. reflexivity.
    + pose proof (OpenFile_handle _ _ _ _ _ _ Hopen) as ->.
      split_and!; try reflexivity.
      * intros Hnone. unfold os.OpenFile in Hopen. rewrite Hnone in Hopen.
        simpl in Hopen. congruence.
      * intros [node Hnode]. unfold os.OpenFile in Hopen. rewrite Hnode in Hopen.
        destruct node as [data wr|]; simpl in Hopen; [| congruence].
        destruct wr; simpl in Hopen; congruence.
      * intros msg data wr Hdata. run_main. unfold os.WriteFile; simpl.
        rewrite Hdata. reflexivity.
  - intros Hdest. run_main. rewrite Hdest. reflexivity.
  - exact Hother.
  - intros Hunset. apply Hother; unfold os.Getenv; rewrite Hunset; discriminate.
Qed.

(** ** Startup never looks at [form.html] *)

Lemma ReadFile_withoutForm (name : string) (fs : os.FS) :
  name ≠ "form.html" →
  os.ReadFile name (delete "form.html" fs) = os.ReadFile name fs.
Proof.
  intros Hne. unfold os.ReadFile. rewrite lookup_delete_ne by congruence. reflexivity.
Qed.

Lemma OpenFile_withoutForm (name : string) (flag perm : Z) (fs : os.FS) :
  name ≠ "form.html" →
  os.OpenFile name flag perm (delete "form.html" fs)
  = (fst (os.OpenFile name flag perm fs),
     delete "form.html" (snd (os.OpenFile name flag perm fs))).
Proof.
  intros Hne. unfold os.OpenFile. rewrite lookup_delete_ne by congruence.
  destruct (fs !! name) as [[data wr|]|];
    repeat match goal with
           | |- context [if ?b then _ else _] => destruct b
           end;
    cbn [fst snd]; rewrite ?delete_insert_ne by congruence; reflexivity.
Qed.

Lemma WriteFile_withoutForm (f : os.File) (text : string) (fs : os.FS) :
  os.fname f ≠ "form.html" →
  os.WriteFile f text (delete "form.html" fs)
  = (fst (os.WriteFile f text fs), delete "form.html" (snd (os.WriteFile f text fs))).
Proof.
  intros Hne. unfold os.WriteFile. rewrite lookup_delete_ne by congruence.
  destruct (fs !! os.fname f) as [[data wr|]|]; [| reflexivity | reflexivity].
  destruct (Z.testbit (os.fflag f) 10);
    cbn [fst snd]; rewrite delete_insert_ne by congruence; reflexivity.
Qed.

Lemma WriteFile_name (f : os.File) (text : string) (fs : os.FS) :
  os.fname (fst (os.WriteFile f text fs)) = os.fname f.
Proof.
  unfold os.WriteFile.
  destruct (fs !! os.fname f) as [[data wr|]|]; [| reflexivity | reflexivity].
  destruct (Z.testbit (os.fflag f) 10); reflexivity.
Qed.

Lemma blind_ret {A : Type} (a : A) : blind (ret a).
Proof. intros p Hp. split; [reflexivity | exact Hp]. Qed.

Lemma blind_exit {A : Type} (code : Z) : blind (@exit Process A code).
Proof. intros p Hp. split; [reflexivity | exact Hp]. Qed.

Lemma blind_bind {A B : Type} (m : Go Process A) (k : A → Go Process B) :
  blind m → (∀ a : A, blind (k a)) → blind (bind m k).
Proof.
  intros Hm Hk p Hp. unfold bind.
  destruct (Hm p Hp) as [Heq Hsafe]. rewrite Heq.
  destruct (m p) as [[a|v|code] p']; cbn [fst snd] in *.
  - apply Hk, Hsafe.
  - split; [reflexivity | exact Hsafe].
  - split; [reflexivity | exact Hsafe].
Qed.

(** Reading the state is harmless when only the environment is used. *)
Lemma blind_get {A : Type} (k : Process → Go Process A) :
  (∀ p : Process, k (withoutForm p) = k p) →
  (∀ q : Process, blind (k q)) →
  blind (bind get k).
Proof.
  intros Henv Hk p Hp. unfold bind, get. rewrite Henv. apply Hk, Hp.
Qed.

Lemma blind_output (msg : string) : blind (log.output msg).
Proof.
  intros p Hp. unfold log.output, modify, logsElsewhere in *. cbn [fst snd].
  destruct p as [env fs out so se]; cbn [logOutput disk environ stdout stderr withoutForm] in *.
  destruct out as [| |f]; [split; [reflexivity | exact I] .. |].
  unfold withoutForm; cbn [logOutput disk environ stdout stderr].
  rewrite WriteFile_withoutForm by exact Hp.
  pose proof (WriteFile_name f (msg +:+ LF) fs) as Hname.
  destruct (os.WriteFile f (msg +:+ LF) fs) as [f' fs']; cbn [fst snd] in *.
  split; [reflexivity |]. cbn [logOutput]. now rewrite Hname.
Qed.

Lemma blind_SetOutput (w : Writer) :
  match w with ToFile f => os.fname f ≠ "form.html" | _ => True end →
  blind (log.SetOutput w).
Proof.
  intros Hw p Hp. split; [reflexivity |].
  unfold logsElsewhere. destruct w; exact Hw.
Qed.

Lemma blind_Fatal {A : Type} (msg : string) : blind (@log.Fatal A msg).
Proof.
  unfold log.Fatal. apply blind_bind; [apply blind_output | intros _; apply blind_exit].
Qed.

Lemma blind_fmt_Println (msg : string) : blind (fmt_Println msg).
Proof. intros p Hp. split; [reflexivity | exact Hp]. Qed.

Lemma blind_Load (name : string) : name ≠ "form.html" → blind (godotenv.Load name).
Proof.
  intros Hne p Hp. unfold godotenv.Load, withoutForm. cbn [disk].
  rewrite ReadFile_withoutForm by exact Hne.
  destruct (os.ReadFile name (disk p)) as [e|text]; [split; [reflexivity | exact Hp] |].
  destruct (godotenv.Parse text) as [e|vars]; split; try reflexivity; exact Hp.
Qed.

Lemma blind_setupFileLogging : blind setupFileLogging.
Proof.
  intros p Hp. unfold setupFileLogging, bind, get.
  cbv beta iota. cbn [disk withoutForm].
  rewrite OpenFile_withoutForm by discriminate.
  destruct (os.OpenFile "app.log" _ 438 (disk p)) as [[e|f] fs'] eqn:Hopen; cbn [fst snd].
  - apply blind_Fatal, Hp.
  - split; [reflexivity |].
    apply OpenFile_handle in Hopen. subst f. unfold logsElsewhere. simpl. discriminate.
Qed.

Lemma blind_main_logging : blind main_logging.
Proof.
  unfold main_logging. apply blind_get; [reflexivity |]. intros q.
  destruct (String.eqb _ "file"); [apply blind_setupFileLogging |].
  destruct (String.eqb _ "stdout"); [apply blind_SetOutput; exact I |].
  apply blind_bind; [apply blind_output | intros _; apply blind_SetOutput; exact I].
Qed.

Lemma blind_loadConfig : blind loadConfig.
Proof.
  unfold loadConfig. apply blind_bind; [apply blind_Load; discriminate |].
  intros [e|]; [apply blind_ret |].
  apply blind_get; [reflexivity | intros q; apply blind_ret].
Qed.

Lemma blind_main : blind main.
Proof.
  unfold main.
  apply blind_bind; [apply blind_main_logging | intros _].
  apply blind_bind; [apply blind_output | intros _].
  apply blind_bind; [apply blind_loadConfig | intros [cfg [e|]]]; cbn [fst snd].
  - apply blind_Fatal.
  - destruct (connectDB cfg) as [e|d]; [apply blind_Fatal |].
    apply blind_bind; [apply blind_fmt_Println | intros _].
    apply blind_get; [reflexivity | intros q].
    apply blind_bind; [apply blind_output | intros _; apply blind_ret].
Qed.

(** C10: [showFormHandler] reads and parses [form.html] from the files
    as they are when the request is served: it panics, writing nothing,
    when the file is missing or does not parse, and otherwise writes the
    output of the template it has just parsed, so that removing the file
    after a served request makes the next request panic.  Startup has no
    part in it: [main] reaches the same result with and without the
    file. *)
Theorem showFormHandler_parses_per_request (r : http.Request) (d : sql.DB Conn)
    (fs : os.FS) :
  (fs !! "form.html" = None →
     serve showFormHandler r d fs
     = (Panic "open form.html: no such file or directory",
        mkExchange http.NewResponseWriter d fs))
  ∧ (∀ (text : string) (wr : bool) (e : error),
       fs !! "form.html" = Some (os.Regular text wr) →
       template.parse "form.html" text = inl e →
       serve showFormHandler r d fs = (Panic e, mkExchange http.NewResponseWriter d fs))
  ∧ (∀ (text : string) (wr : bool) (t : Template),
       fs !! "form.html" = Some (os.Regular text wr) →
       template.parse "form.html" text = inr t →
       serve showFormHandler r d fs
       = (Val tt, mkExchange (snd (template.Execute t http.NewResponseWriter)) d fs)
       ∧ serve showFormHandler r d (delete "form.html" fs)
         = (Panic "open form.html: no such file or directory",
            mkExchange http.NewResponseWriter d (delete "form.html" fs)))
  ∧ (∀ env : os.Environ,
       fst (main (start env (delete "form.html" fs))) = fst (main (start env fs))).
Proof.
  destruct (showFormHandler_runs r d fs) as (Hmissing & Hbad & Hgood).
  split_and!; [exact Hmissing | exact Hbad | exact Hgood |].
  intros env.
  destruct (blind_main (start env fs) I) as [Heq _].
  change (start env (delete "form.html" fs)) with (withoutForm (start env fs)).
  rewrite Heq. reflexivity.
Qed.

End Properties.

(* ===================================================================== *)
(** * Concrete runs                                                       *)
(* ===================================================================== *)

(** The theorems above, applied to the doubles. *)

Lemma getUsersHandler_no_rows_run :
  fst (serve Double.listUsers (Double.GET "/users") Double.emptyDB ∅) = Val tt
  ∧ reply (serve Double.listUsers (Double.GET "/users") Double.emptyDB ∅)
    = http.mkResponse 200 (<["Content-Type" := ["application/json"]]> ∅) ("null" +:+ LF)
  ∧ http.Content (reply (serve Double.listUsers (Double.GET "/users") Double.emptyDB ∅))
    ≠ "[]" +:+ LF.
Proof.
  apply (getUsersHandler_no_rows (driver := Double.memDriver) (encoder := Double.plainQuote)
           (Double.GET "/users") Double.emptyDB ∅ (Double.mkMemDB true [] 1)).
  reflexivity.
Defined.

Lemma createUserHandler_bad_body_run :
  fst (serve Double.postUsers (Double.POST "/users" "application/json" "{") Double.emptyDB ∅)
  = Val tt
  ∧ reply (serve Double.postUsers (Double.POST "/users" "application/json" "{")
             Double.emptyDB ∅)
    = http.mkResponse 400 http.errorHeaders (Double.syntaxError +:+ LF)
  ∧ db (snd (serve Double.postUsers (Double.POST "/users" "application/json" "{")
               Double.emptyDB ∅))
    = Double.emptyDB.
Proof.
  apply (createUserHandler_bad_body (driver := Double.memDriver)
           (decoder := Double.userDecoder)
           (Double.POST "/users" "application/json" "{") Double.emptyDB ∅ zeroUser).
  reflexivity.
Defined.

Lemma createUserHandler_insert_run :
  db (snd (serve Double.postUsers (Double.POST "/users" "application/json" Double.adaBody)
             Double.emptyDB ∅))
  = sql.mkDB (Double.mkMemDB true [mkUser 1 "Ada" "Lovelace"] 2)
      [sql.ExecCall "INSERT INTO users (first_name, last_name) VALUES (?, ?)"
         ["Ada"; "Lovelace"]]
  ∧ reply (serve Double.postUsers (Double.POST "/users" "application/json" Double.adaBody)
             Double.emptyDB ∅)
    = http.mkResponse 201 ∅ "".
Proof.
  pose proof (createUserHandler_insert (driver := Double.memDriver)
                (decoder := Double.userDecoder)
                (Double.POST "/users" "application/json" Double.adaBody) Double.emptyDB ∅
                (mkUser 7 "Ada" "Lovelace") None
                (Double.mkMemDB true [mkUser 1 "Ada" "Lovelace"] 2)
                eq_refl eq_refl) as (_ & Hdb & Hreply & _).
  split; [exact Hdb | exact Hreply].
Defined.

Lemma readinessCheckHandler_ping_run :
  reply (serve Double.readiness (Double.GET "/readiness") Double.brokenDB ∅)
  = http.mkResponse 503 ∅ ("Database is not available" +:+ LF)
  ∧ fst (serve Double.readiness (Double.GET "/readiness") Double.brokenDB ∅) = Val tt.
Proof.
  pose proof (readinessCheckHandler_ping (driver := Double.memDriver)
                (Double.GET "/readiness") Double.brokenDB ∅
                (Some Double.closed) (Double.mkMemDB false [] 1) eq_refl)
    as (Hret & _ & Hreply & _).
  split; [exact Hreply | exact Hret].
Defined.

Lemma createHandler_form_run :
  db (snd (serve Double.postCreate
             (Double.POST "/create" Double.formType "first_name=Ada") Double.emptyDB ∅))
  = sql.mkDB (Double.mkMemDB true [mkUser 1 "Ada" ""] 2)
      [sql.ExecCall "INSERT INTO users (first_name, last_name) VALUES (?, ?)"
         ["Ada"; ""]]
  ∧ reply (serve Double.postCreate
             (Double.POST "/create" Double.formType "first_name=Ada") Double.emptyDB ∅)
    = http.mkResponse 303 (<["Location" := ["/"]]> ∅) "".
Proof.
  pose proof (createHandler_form (driver := Double.memDriver) (forms := Double.formParser)
                (Double.POST "/create" Double.formType "first_name=Ada") Double.emptyDB ∅
                (<["first_name" := ["Ada"]]> ∅) None None
                (Double.mkMemDB true [mkUser 1 "Ada" ""] 2)
                eq_refl eq_refl eq_refl eq_refl) as (_ & _ & Hdb & Hreply).
  split; [exact Hdb | exact Hreply].
Defined.


Lemma loadConfig_total_run :
  Double.config Run.goodEnv
  = (Val (mkConfig "" "" "localhost" "" "app", None),
     mkProcess (<["DB_HOST" := "localhost"]> ∅ ∪ <["DB_NAME" := "app"]> (<["DB_HOST" := "db"]> ∅))
       (disk Run.goodEnv) Stderr "" "").
Proof.
  destruct (loadConfig_total (dotenv := Double.dotenvParser) Run.goodEnv)
    as (cfg & p' & Hrun & _ & Hload).
  vm_compute in Hload. destruct Hload as [Hp Hcfg].
  unfold Double.config. rewrite Hrun, Hcfg, Hp. reflexivity.
Defined.

Lemma main_logging_destinations_run :
  Double.logging (start (<["LOG_DESTINATION" := "file"]> ∅) Run.readOnlyLog)
  = (Exit 1,
     mkProcess (<["LOG_DESTINATION" := "file"]> ∅) Run.readOnlyLog Stderr ""
       ("Error opening log file:open app.log: permission denied" +:+ LF))
  ∧ Double.boot (start (<["LOG_DESTINATION" := "file"]> ∅) Run.readOnlyLog)
    = (Exit 1,
       mkProcess (<["LOG_DESTINATION" := "file"]> ∅) Run.readOnlyLog Stderr ""
         ("Error opening log file:open app.log: permission denied" +:+ LF)).
Proof.
  exact (proj1 (main_logging_destinations
                  (driver := Double.memDriver) (decoder := Double.userDecoder)
                  (encoder := Double.plainQuote) (forms := Double.formParser)
                  (dotenv := Double.dotenvParser) (engine := Double.staticEngine)
                  (<["LOG_DESTINATION" := "file"]> ∅) Run.readOnlyLog)
           eq_refl (inl "open app.log: permission denied") Run.readOnlyLog eq_refl).
Defined.

Lemma showFormHandler_parses_per_request_run :
  serve Double.showForm (Double.GET "/") Double.emptyDB Run.withForm
  = (Val tt,
     mkExchange (http.mkResponseWriter ∅ (Some (200, ∅)) "<form></form>")
       Double.emptyDB Run.withForm)
  ∧ serve Double.showForm (Double.GET "/") Double.emptyDB (delete "form.html" Run.withForm)
    = (Panic "open form.html: no such file or directory",
       mkExchange http.NewResponseWriter Double.emptyDB (delete "form.html" Run.withForm)).
Proof.
  exact (proj1 (proj2 (proj2 (showFormHandler_parses_per_request
                                (engine := Double.staticEngine)
                                (driver := Double.memDriver)
                                (decoder := Double.userDecoder)
                                (encoder := Double.plainQuote)
                                (forms := Double.formParser)
                                (dotenv := Double.dotenvParser)
                                (Double.GET "/") Double.emptyDB Run.withForm)))
           "<form></form>" true "<form></form>" eq_refl eq_refl).
Defined.

(** ** Where the code departs from the stated text *)

(** C5: the body of the liveness response is three bytes, ["OK"] and a
    line feed, and so is not the two bytes ["OK"]. *)
Lemma healthCheckHandler_body_not_bare :
  http.Content (reply (serve Double.health (Double.GET "/health") Double.emptyDB ∅))
  = "OK" +:+ LF
  ∧ ¬ (http.Status (reply (serve Double.health (Double.GET "/health") Double.emptyDB ∅)) = 200
       ∧ http.Content (reply (serve Double.health (Double.GET "/health") Double.emptyDB ∅))
         = "OK").
Proof.
  split; [reflexivity |]. intros [_ Hbody]. discriminate Hbody.
Qed.

(** C4: with a reachable database the readiness body is ["OK"] and a
    line feed, not ["OK"]; with an unreachable one it is the message and a
    line feed, not the message alone. *)
Lemma readinessCheckHandler_body_not_bare :
  fst (@sql.driverPing _ Double.memDriver (sql.conn Double.emptyDB)) = None
  ∧ ¬ (http.Status (reply (serve Double.readiness (Double.GET "/readiness")
                             Double.emptyDB ∅)) = 200
       ∧ http.Content (reply (serve Double.readiness (Double.GET "/readiness")
                                Double.emptyDB ∅)) = "OK")
  ∧ fst (@sql.driverPing _ Double.memDriver (sql.conn Double.brokenDB)) ≠ None
  ∧ ¬ (http.Status (reply (serve Double.readiness (Double.GET "/readiness")
                             Double.brokenDB ∅)) = 503
       ∧ http.Content (reply (serve Double.readiness (Double.GET "/readiness")
                                Double.brokenDB ∅)) = "Database is not available").
Proof.
  split_and!.
  - reflexivity.
  - intros [_ Hbody]. discriminate Hbody.
  - discriminate.
  - intros [_ Hbody]. discriminate Hbody.
Qed.

(** C7: [.env] is present, and the five fields are not populated from
    the environment: [DB_USERNAME] is [root] there, the file does not
    parse, and the configuration returned is the zero value. *)
Lemma loadConfig_present_file_not_loaded :
  is_Some (disk Run.malformedEnv !! ".env")
  ∧ os.Getenv "DB_USERNAME" (environ Run.malformedEnv) = "root"
  ∧ Double.config Run.malformedEnv = (Val (zeroConfig, None), Run.malformedEnv)
  ∧ ¬ (∃ (cfg : Config) (p' : Process),
         Double.config Run.malformedEnv = (Val (cfg, None), p')
         ∧ DBUsername cfg = os.Getenv "DB_USERNAME" (environ p')).
Proof.
  split_and!.
  - eexists. reflexivity.
  - reflexivity.
  - reflexivity.
  - intros (cfg & p' & Hrun & Huser).
    assert (Hrun' : Double.config Run.malformedEnv = (Val (zeroConfig, None), Run.malformedEnv))
      by reflexivity.
    rewrite Hrun' in Hrun. injection Hrun as Hcfg Hp. subst cfg p'.
    discriminate Huser.
Qed.

(* ===================================================================== *)
(** * Further properties: the error paths, the routes, startup            *)
(* ===================================================================== *)

Section Traffic.
Context {Conn : Type} {driver : sql.Driver Conn}.
Context {decoder : json.Decoder User} {encoder : json.StringEncoder}.
Context {forms : http.FormParser}.
Context {Template : Type} {engine : template.Engine Template}.

(** ** [connectDB] *)

(** X1: [connectDB] hands out a handle only after one successful ping of
    the connection opened for the [mysql] driver with the data source
    name [user:password@tcp(host:port)/name], and that ping is the only
    call the handle has seen; an open error is returned without any
    ping, and a ping error is returned in place of the handle. *)
Theorem connectDB_pinged (config : Config) :
  (∀ d : sql.DB Conn,
     connectDB config = inr d →
     ∃ c : Conn,
       sql.driverOpen "mysql" (dataSourceName config) = inr c
       ∧ sql.driverPing c = (None, sql.conn d)
       ∧ sql.calls d = [sql.PingCall])
  ∧ (∀ e : error,
       sql.driverOpen "mysql" (dataSourceName config) = inl e →
       connectDB config = inl e)
  ∧ (∀ (c c' : Conn) (e : error),
       sql.driverOpen "mysql" (dataSourceName config) = inr c →
       sql.driverPing c = (Some e, c') →
       connectDB config = inl e).
Proof.
  unfold connectDB, sql.Open, sql.Ping.
  change (DBUsername config +:+ ":" +:+ DBPassword config +:+ "@tcp("
          +:+ DBHost config +:+ ":" +:+ DBPort config +:+ ")/" +:+ DBName config)
    with (dataSourceName config).
  split_and!.
  - intros d Hd.
    destruct (sql.driverOpen "mysql" (dataSourceName config)) as [e|c]; [discriminate |].
    cbn [sql.conn sql.calls] in Hd.
    destruct (sql.driverPing c) as [[e|] c'] eqn:Hping; [discriminate |].
    injection Hd as <-. exists c. split_and!; [reflexivity | exact Hping | reflexivity].
  - intros e Hopen. rewrite Hopen. reflexivity.
  - intros c c' e Hopen Hping. rewrite Hopen. cbn [sql.conn sql.calls].
    rewrite Hping. reflexivity.
Qed.

(** ** GET /users: the error paths and the listing *)

Lemma scanUsers_stops (good : list (Z * string * string)) (e : error)
    (rest : list sql.Scanned) (users : slice User) :
  scanUsers (map inr good ++ inl e :: rest)%list users = inl e.
Proof.
  revert users. induction good as [|[[id first] last] good IH]; intros users; simpl.
  - reflexivity.
  - apply IH.
Qed.

(** X2: when the query itself fails, [getUsersHandler] answers 500 with
    the query's error text, and the query is the only call on the handle:
    there is no result set to close. *)
Theorem getUsersHandler_query_error (r : http.Request) (d : sql.DB Conn) (fs : os.FS)
    (e : error) (c : Conn) :
  sql.driverQuery selectQuery (sql.conn d) = (inl e, c) →
  fst (serve getUsersHandler r d fs) = Val tt
  ∧ reply (serve getUsersHandler r d fs)
    = http.mkResponse 500 http.errorHeaders (e +:+ LF)
  ∧ db (snd (serve getUsersHandler r d fs))
    = sql.mkDB c (sql.calls d ++ [sql.QueryCall selectQuery]).
Proof.
  intros Hq. run_handler. rewrite Hq. run_handler.
  split_and!; [reflexivity | apply (response_Error e 500); reflexivity | reflexivity].
Qed.

(** X3: when a row fails to scan, [getUsersHandler] answers 500 with that
    row's error text and nothing else: the users read before it are not
    sent, the rows after it are not read, and the result set is closed. *)
Theorem getUsersHandler_scan_error (r : http.Request) (d : sql.DB Conn) (fs : os.FS)
    (good : list (Z * string * string)) (e : error) (rest : list sql.Scanned) (c : Conn) :
  sql.driverQuery selectQuery (sql.conn d)
  = (inr (map inr good ++ inl e :: rest)%list, c) →
  fst (serve getUsersHandler r d fs) = Val tt
  ∧ reply (serve getUsersHandler r d fs)
    = http.mkResponse 500 http.errorHeaders (e +:+ LF)
  ∧ db (snd (serve getUsersHandler r d fs))
    = sql.mkDB c (sql.calls d ++ [sql.QueryCall selectQuery; sql.RowsCloseCall]).
Proof.
  intros Hq. unfold reply, serve, getUsersHandler, bind, onDB, sql.Query.
  cbn [db rw files]. rewrite Hq, scanUsers_stops. run_handler.
  split_and!; [reflexivity | apply (response_Error e 500); reflexivity |].
  rewrite <- app_assoc. reflexivity.
Qed.

(** X4: when the query returns one or more rows and all of them scan,
    [getUsersHandler] answers 200 with content type [application/json]
    and a JSON array holding one object per row, in the order of the
    rows; the handle has seen the query and then the closing of the
    result set. *)
Theorem getUsersHandler_lists_rows (r : http.Request) (d : sql.DB Conn) (fs : os.FS)
    (row : Z * string * string) (rows : list (Z * string * string)) (c : Conn) :
  sql.driverQuery selectQuery (sql.conn d) = (inr (map inr (row :: rows)), c) →
  fst (serve getUsersHandler r d fs) = Val tt
  ∧ reply (serve getUsersHandler r d fs)
    = http.mkResponse 200 (<["Content-Type" := ["application/json"]]> ∅)
        (("[" +:+ String.concat "," (map (λ x, marshalUser (rowUser x)) (row :: rows)) +:+ "]")
         +:+ LF)
  ∧ db (snd (serve getUsersHandler r d fs))
    = sql.mkDB c (sql.calls d ++ [sql.QueryCall selectQuery; sql.RowsCloseCall]).
Proof.
  intros Hq. unfold reply, serve, getUsersHandler, bind, onDB, sql.Query.
  cbn [db rw files]. rewrite Hq, scanUsers_nil. run_handler.
  rewrite <- app_assoc, map_map. split_and!; reflexivity.
Qed.

(** ** The two ways to insert *)

(** X5: a JSON body and a form that carry the same two names do the same
    thing to the database: [createUserHandler] and [createHandler] leave
    the handle in the same state, having run the same single insert. *)
Theorem insert_paths_agree (r1 r2 : http.Request) (d : sql.DB Conn) (fs : os.FS)
    (u : User) (vs : http.Values) (perr : option error) :
  json.Decode (http.Body r1) zeroUser = (u, None) →
  http.Form r2 = None →
  http.parseForm r2 = (vs, perr) →
  http.Get "first_name" vs = FirstName u →
  http.Get "last_name" vs = LastName u →
  db (snd (serve createUserHandler r1 d fs)) = db (snd (serve createHandler r2 d fs))
  ∧ sql.calls (db (snd (serve createHandler r2 d fs)))
    = (sql.calls d ++ [sql.ExecCall insertQuery [FirstName u; LastName u]])%list.
Proof.
  intros Hdec Hnil Hparse Hfirst Hlast.
  destruct (sql.driverExec insertQuery [FirstName u; LastName u] (sql.conn d))
    as [err c] eqn:Hexec.
  assert (Hdb1 : db (snd (serve createUserHandler r1 d fs))
                 = sql.mkDB c (sql.calls d ++ [sql.ExecCall insertQuery
                                                 [FirstName u; LastName u]])).
  { run_handler. rewrite Hdec. run_handler. rewrite Hexec. now destruct err. }
  assert (Hdb2 : db (snd (serve createHandler r2 d fs))
                 = sql.mkDB c (sql.calls d ++ [sql.ExecCall insertQuery
                                                 [FirstName u; LastName u]])).
  { run_handler. rewrite !(FormValue_parsed r2 vs perr) by assumption.
    rewrite Hfirst, Hlast, Hexec. now destruct err. }
  rewrite Hdb1, Hdb2. split; reflexivity.
Qed.

(** ** GET /: a template that fails while it runs *)

(** X12: an error of [tmpl.Execute] is dropped.  When [form.html] parses,
    [showFormHandler] returns normally whether or not the execution
    reports an error, and the response is 200 with whatever text the
    execution produced before it stopped; the handler never answers with
    an error status and never touches the database. *)
Theorem showFormHandler_execute_error (r : http.Request) (d : sql.DB Conn) (fs : os.FS)
    (src : string) (wr : bool) (t : Template) (text : string) (err : option error) :
  fs !! "form.html" = Some (os.Regular src wr) →
  template.parse "form.html" src = inr t →
  template.execute t = (text, err) →
  fst (serve showFormHandler r d fs) = Val tt
  ∧ reply (serve showFormHandler r d fs) = http.mkResponse 200 ∅ text
  ∧ db (snd (serve showFormHandler r d fs)) = d.
Proof.
  intros Hfile Hparse Hexec. run_handler.
  unfold template.ParseFiles, os.ReadFile. rewrite Hfile, Hparse. run_handler.
  unfold template.Execute. rewrite Hexec. cbn [snd].
  split_and!; [reflexivity | | reflexivity].
  destruct (String.eqb text "") eqn:Hempty; [| reflexivity].
  apply String.eqb_eq in Hempty. subst text. reflexivity.
Qed.

End Traffic.

Section Startup.
Context {Conn : Type} {driver : sql.Driver Conn}.
Context {decoder : json.Decoder User} {encoder : json.StringEncoder}.
Context {forms : http.FormParser}.
Context {dotenv : godotenv.Parser}.
Context {Template : Type} {engine : template.Engine Template}.

(** ** The route table *)

(** X6: whatever the request, a handler registered in [routes] only adds
    to the calls the handle has seen, adds at most one call that reaches
    the server, and every SQL text it sends is one of the program's two
    constant statements: request data travels as arguments only.  No
    handler changes a file. *)
Theorem routes_one_statement (rt : Route Conn) (r : http.Request) (d : sql.DB Conn)
    (fs : os.FS) :
  In rt routes →
  ∃ new : list sql.Call,
    sql.calls (db (snd (serve (routeHandler rt) r d fs))) = (sql.calls d ++ new)%list
    ∧ Forall fixedStatement new
    ∧ (roundTrips new ≤ 1)%nat
    ∧ files (snd (serve (routeHandler rt) r d fs)) = fs.
Proof.
  intros Hin. unfold routes in Hin. simpl in Hin.
  destruct Hin as [<-|[<-|[<-|[<-|[<-|[<-|[]]]]]]]; cbn [routeHandler].
  - run_handler. destruct (json.Decode (http.Body r) zeroUser) as [u [e|]]; run_handler.
    + new_calls (@nil sql.Call).
    + destruct (sql.driverExec _ _ _) as [[e|] c];
        new_calls [sql.ExecCall insertQuery [FirstName u; LastName u]].
  - unfold serve, getUsersHandler, bind, onDB, sql.Query. cbn [db rw files].
    destruct (sql.driverQuery selectQuery (sql.conn d)) as [[e|rows] c]; run_handler.
    + new_calls [sql.QueryCall selectQuery].
    + destruct (scanUsers rows nilSlice) as [e|users]; run_handler;
        rewrite <- app_assoc; new_calls [sql.QueryCall selectQuery; sql.RowsCloseCall].
  - run_handler. destruct (template.ParseFiles "form.html" fs) as [e|t]; run_handler;
      new_calls (@nil sql.Call).
  - run_handler. destruct (sql.driverExec _ _ _) as [[e|] c];
      new_calls [sql.ExecCall insertQuery
                   [http.FormValue "first_name" (fst (http.ParseForm r));
                    http.FormValue "last_name" (fst (http.ParseForm r))]].
  - run_handler. new_calls (@nil sql.Call).
  - run_handler. destruct (sql.driverPing _) as [[e|] c]; new_calls [sql.PingCall].
Qed.

(** ** Composing the steps of [main] *)

Lemma append_assoc (s t u : string) : (s +:+ t) +:+ u = s +:+ (t +:+ u).
Proof.
  induction s as [|x s IH]; [reflexivity |].
  change (String x ((s +:+ t) +:+ u) = String x (s +:+ (t +:+ u))). now rewrite IH.
Qed.

Lemma append_empty_r (s : string) : s +:+ "" = s.
Proof.
  induction s as [|x s IH]; [reflexivity |].
  change (String x (s +:+ "") = String x s). now rewrite IH.
Qed.

Lemma triple_bind {A B : Type} (P : Process → Prop) (R : A → Process → Prop)
    (Q : Result B → Process → Prop) (m : Go Process A) (k : A → Go Process B) :
  triple P m (λ r p, match r with
                     | Val a => R a p
                     | Panic v => Q (Panic v) p
                     | Exit code => Q (Exit code) p
                     end) →
  (∀ a : A, triple (R a) (k a) Q) →
  triple P (bind m k) Q.
Proof.
  intros Hm Hk p Hp. specialize (Hm p Hp). unfold bind.
  destruct (m p) as [[a|v|code] p']; cbn [fst snd] in *;
    [apply Hk, Hm | exact Hm | exact Hm].
Qed.

Lemma triple_get {A : Type} (P : Process → Prop) (k : Process → Go Process A)
    (Q : Result A → Process → Prop) :
  (∀ q : Process, P q → Q (fst (k q q)) (snd (k q q))) →
  triple P (bind get k) Q.
Proof. intros Hk p Hp. exact (Hk p Hp). Qed.

Lemma triple_ret {A : Type} (P : Process → Prop) (a : A) (Q : Result A → Process → Prop) :
  (∀ p : Process, P p → Q (Val a) p) → triple P (ret a) Q.
Proof. intros HQ p Hp. exact (HQ p Hp). Qed.

Lemma triple_output (P : Process → Prop) (msg : string)
    (Q : Result unit → Process → Prop) :
  (∀ p : Process, P p → Q (Val tt) (snd (log.output msg p))) →
  triple P (log.output msg) Q.
Proof. intros HQ p Hp. exact (HQ p Hp). Qed.

Lemma triple_Fatal {A : Type} (P : Process → Prop) (msg : string)
    (Q : Result A → Process → Prop) :
  (∀ p : Process, P p → Q (Exit 1) (snd (log.output msg p))) →
  triple P (log.Fatal msg) Q.
Proof. intros HQ p Hp. exact (HQ p Hp). Qed.

Lemma triple_fmt_Println (P : Process → Prop) (msg : string)
    (Q : Result unit → Process → Prop) :
  (∀ p : Process, P p → Q (Val tt) (snd (fmt_Println msg p))) →
  triple P (fmt_Println msg) Q.
Proof. intros HQ p Hp. exact (HQ p Hp). Qed.

(** What a log record changes. *)

Lemma bind_output {A : Type} (msg : string) (k : unit → Go Process A) (p : Process) :
  bind (log.output msg) k p = k tt (snd (log.output msg p)).
Proof. reflexivity. Qed.

Lemma output_environ (msg : string) (p : Process) :
  environ (snd (log.output msg p)) = environ p.
Proof.
  unfold log.output, modify. cbn [snd].
  destruct (logOutput p) as [| |f]; [reflexivity | reflexivity |].
  destruct (os.WriteFile f (msg +:+ LF) (disk p)); reflexivity.
Qed.

Lemma output_onStdout (se : string) (fs : os.FS) (msg : string) (p : Process) :
  onStdout se fs p →
  onStdout se fs (snd (log.output msg p))
  ∧ stdout (snd (log.output msg p)) = stdout p +:+ msg +:+ LF.
Proof.
  intros (Hout & Hse & Hfs). unfold log.output, modify, onStdout. cbn [snd].
  rewrite Hout. cbn. split_and!; [reflexivity | exact Hse | exact Hfs | reflexivity].
Qed.

Lemma logFlags_append : Z.testbit logFlags 10 = true.
Proof. reflexivity. Qed.

Lemma output_appending (data se : string) (msg : string) (p : Process) :
  appending data se p → appending data se (snd (log.output msg p)).
Proof.
  intros (Hout & Hse & more & Hfile). unfold log.output, modify, appending. cbn [snd].
  rewrite Hout. unfold os.WriteFile. cbn [os.fname os.fflag]. rewrite Hfile, logFlags_append.
  cbn. split_and!; [reflexivity | exact Hse |].
  exists (more +:+ msg +:+ LF). rewrite lookup_insert_eq, append_assoc. reflexivity.
Qed.

Lemma output_beforeLoad (env : os.Environ) (fs : os.FS) (msg : string) (p : Process) :
  beforeLoad env fs p → beforeLoad env fs (snd (log.output msg p)).
Proof.
  intros (Henv & Hfile & Hlog). unfold log.output, modify, beforeLoad. cbn [snd].
  destruct (logOutput p) as [| |f]; cbn; [now split_and! | now split_and! |].
  pose proof (WriteFile_name f (msg +:+ LF) (disk p)) as Hname.
  assert (Hkeep : snd (os.WriteFile f (msg +:+ LF) (disk p)) !! ".env" = disk p !! ".env").
  { unfold os.WriteFile. destruct (disk p !! os.fname f) as [[data wr|]|]; try reflexivity.
    destruct (Z.testbit (os.fflag f) 10); cbn [snd];
      rewrite lookup_insert_ne by (rewrite Hlog; discriminate); reflexivity. }
  destruct (os.WriteFile f (msg +:+ LF) (disk p)) as [f' fs']; cbn in *.
  split_and!; [exact Henv | now rewrite Hkeep | now rewrite Hname].
Qed.

(** What [loadConfig] does to the state: only the environment can change. *)
Lemma loadConfig_run (p : Process) :
  ∃ cfg : Config,
    loadConfig p
    = (Val (cfg, None),
       mkProcess (loadedEnv (environ p) (disk p)) (disk p) (logOutput p)
         (stdout p) (stderr p)).
Proof.
  destruct p as [env fs out so se]. unfold loadedEnv. run_main.
  destruct (os.ReadFile ".env" fs) as [e|text]; [eexists; reflexivity |].
  destruct (godotenv.Parse text) as [e|vars]; eexists; reflexivity.
Qed.

Lemma triple_loadConfig (P : Process → Prop) (Q : Result (Config * option error) → Process → Prop) :
  (∀ (p : Process) (cfg : Config),
     P p →
     Q (Val (cfg, None))
       (mkProcess (loadedEnv (environ p) (disk p)) (disk p) (logOutput p)
          (stdout p) (stderr p))) →
  triple P loadConfig Q.
Proof.
  intros HQ p Hp. destruct (loadConfig_run p) as [cfg ->]. exact (HQ p cfg Hp).
Qed.

Lemma connectDB_calls (config : Config) (d : sql.DB Conn) :
  connectDB config = inr d → sql.calls d = [sql.PingCall].
Proof.
  unfold connectDB, sql.Open, sql.Ping. intros Hd.
  destruct (sql.driverOpen _ _) as [e|c]; [discriminate |].
  cbn [sql.conn sql.calls] in Hd.
  destruct (sql.driverPing c) as [[e|] c']; [discriminate |].
  now injection Hd as <-.
Qed.

(** The logging switch returns or exits with status 1. *)
Lemma main_logging_outcome :
  triple (λ _, True) main_logging (orExits (λ _ _, True)).
Proof.
  intros p _. run_main.
  destruct (String.eqb _ "file").
  - destruct (os.OpenFile _ _ _ _) as [[e|f] fs']; simpl; [reflexivity | exact I].
  - destruct (String.eqb _ "stdout"); exact I.
Qed.

(** X7: [main] never panics.  It either exits with status 1 or enters
    the serve loop, and then the router is the table of six routes, the
    address is [:] followed by [PORT] as the environment then holds it,
    or by [8000] when [PORT] is empty or unset, and the handle is one
    [connectDB] returned: the ping of [connectDB] is the only call it has
    seen. *)
Theorem main_serves_or_exits (p : Process) :
  match fst (main p) with
  | Val s =>
      router s = routes
      ∧ Addr s = listenAddr (environ (snd (main p)))
      ∧ sql.calls (handle s) = [sql.PingCall]
      ∧ ∃ config : Config, connectDB config = inr (handle s)
  | Panic _ => False
  | Exit code => code = 1
  end.
Proof.
  enough (Hmain : triple (λ _, True) main
            (orExits (λ s q, router s = routes
                             ∧ Addr s = listenAddr (environ q)
                             ∧ sql.calls (handle s) = [sql.PingCall]
                             ∧ ∃ config : Config, connectDB config = inr (handle s))))
    by exact (Hmain p I).
  unfold main.
  eapply triple_bind; [exact main_logging_outcome | intros []; cbv beta].
  eapply triple_bind with (R := λ _ _, True);
    [apply triple_output; intros; exact I | intros []; cbv beta].
  eapply triple_bind with (R := λ loaded _, snd loaded = None);
    [apply triple_loadConfig; intros; reflexivity | intros [cfg err]].
  cbn [fst snd]. destruct err as [e|]; [intros q Hq; discriminate Hq |].
  destruct (connectDB cfg) as [e|d] eqn:Hconn;
    [apply triple_Fatal; intros; reflexivity |].
  eapply triple_bind with (R := λ _ _, True);
    [apply triple_fmt_Println; intros; exact I | intros []; cbv beta].
  apply triple_get. intros q _. unfold log.Printf. rewrite bind_output.
  cbn [ret fst snd orExits Addr router handle]. rewrite output_environ.
  split_and!; [reflexivity | reflexivity | exact (connectDB_calls cfg d Hconn) |].
  exists cfg. exact Hconn.
Qed.

(** ** Logging to standard output *)

(** Once the logging switch has put the logger on standard output, the
    rest of [main] leaves it there, writes nothing to standard error and
    touches no file. *)
Lemma main_on_stdout (p p1 : Process) (se : string) (fs : os.FS) :
  main_logging p = (Val tt, p1) →
  onStdout se fs p1 →
  onStdout se fs (snd (main p))
  ∧ ∃ more : string,
      stdout (snd (main p)) = stdout p1 +:+ "Starting application" +:+ LF +:+ more.
Proof.
  intros Hlogging Hp1.
  set (I := λ q : Process,
         onStdout se fs q
         ∧ ∃ more : string,
             stdout q = stdout p1 +:+ "Starting application" +:+ LF +:+ more).
  assert (Hlog : ∀ (msg : string) (q : Process), I q → I (snd (log.output msg q))).
  { intros msg q [Hon [more Hso]].
    destruct (output_onStdout _ _ msg q Hon) as [Hon' Hso']. split; [exact Hon' |].
    exists (more +:+ msg +:+ LF). rewrite Hso', Hso, !append_assoc. reflexivity. }
  enough (Hmain : triple (λ q, q = p) main (always I)) by exact (Hmain p eq_refl).
  unfold main.
  eapply triple_bind with (R := λ _ q, q = p1).
  { intros q ->. now rewrite Hlogging. }
  intros []; cbv beta.
  eapply triple_bind with (R := λ _ q, I q).
  { apply triple_output. intros q ->.
    destruct (output_onStdout _ _ "Starting application" p1 Hp1) as [Hon' Hso'].
    split; [exact Hon' |]. exists "". rewrite Hso', append_empty_r. reflexivity. }
  intros []; cbv beta.
  eapply triple_bind with (R := λ loaded q, I q ∧ snd loaded = None).
  { apply triple_loadConfig. intros q cfg HI. split; [exact HI | reflexivity]. }
  intros [cfg err]; cbn [fst snd].
  destruct err as [e|]; [intros q [_ Hq]; discriminate Hq |].
  destruct (connectDB cfg) as [e|d].
  { apply triple_Fatal. intros q [HI _]. apply Hlog, HI. }
  eapply triple_bind with (R := λ _ q, I q).
  { apply triple_fmt_Println. intros q [[Hon [more Hso]] _]. split; [exact Hon |].
    exists (more +:+ "Connected to MariaDB!" +:+ LF). cbn [snd fmt_Println modify stdout].
    rewrite Hso, !append_assoc. reflexivity. }
  intros []; cbv beta.
  apply triple_get. intros q HI. unfold log.Printf. rewrite bind_output.
  cbn [ret fst snd always]. apply Hlog, HI.
Qed.

(** X8: with [LOG_DESTINATION=stdout], however [main] ends, nothing has
    been written to standard error and no file has been created or
    changed: the logger is on standard output, and standard output has
    received the record ["Starting application"] right after what it
    held before. *)
Theorem main_stdout_only (p : Process) :
  os.Getenv "LOG_DESTINATION" (environ p) = "stdout" →
  onStdout (stderr p) (disk p) (snd (main p))
  ∧ ∃ more : string,
      stdout (snd (main p)) = stdout p +:+ "Starting application" +:+ LF +:+ more.
Proof.
  intros Hdest.
  apply (main_on_stdout p
           (mkProcess (environ p) (disk p) Stdout (stdout p) (stderr p))).
  - run_main. rewrite Hdest. reflexivity.
  - repeat split.
Qed.

(** X13: a [LOG_DESTINATION] that only [.env] sets has no effect, since
    the destination is chosen before the file is loaded.  When the
    variable is unset in the environment [main] starts with, then
    whatever the files hold and however [main] ends, the logger is on
    standard output, no file (so no [app.log]) has been created or
    changed, and standard error holds the warning and nothing else. *)
Theorem main_destination_before_load (env : os.Environ) (fs : os.FS) :
  env !! "LOG_DESTINATION" = None →
  onStdout (warning +:+ LF) fs (snd (main (start env fs)))
  ∧ ∃ more : string,
      stdout (snd (main (start env fs))) = "Starting application" +:+ LF +:+ more.
Proof.
  intros Hunset.
  apply (main_on_stdout (start env fs) (mkProcess env fs Stdout "" (warning +:+ LF))).
  - run_main. unfold os.Getenv. rewrite Hunset. reflexivity.
  - repeat split.
Qed.

(** ** Logging to a file *)

(** X9: with [LOG_DESTINATION=file] and an [app.log] that exists and may
    be written, [main] only ever appends to the file: however it ends,
    the file holds what it held before, then the record
    ["Starting application"], then whatever was logged later; the logger
    is still on the file, and standard error has received nothing. *)
Theorem main_file_log_append_only (p : Process) (data : string) :
  os.Getenv "LOG_DESTINATION" (environ p) = "file" →
  disk p !! "app.log" = Some (os.Regular data true) →
  appending (data +:+ "Starting application" +:+ LF) (stderr p) (snd (main p)).
Proof.
  intros Hdest Hfile.
  set (I := appending (data +:+ "Starting application" +:+ LF) (stderr p)).
  enough (Hmain : triple (λ q, q = p) main (always I)) by exact (Hmain p eq_refl).
  unfold main.
  eapply triple_bind
    with (R := λ _ q, logOutput q = ToFile (os.mkFile "app.log" logFlags 0)
                      ∧ stderr q = stderr p
                      ∧ disk q !! "app.log" = Some (os.Regular data true)).
  { intros q ->. run_main. rewrite Hdest. cbn [String.eqb Ascii.eqb Bool.eqb].
    change (Z.lor (Z.lor os.O_CREATE os.O_WRONLY) os.O_APPEND) with logFlags.
    unfold os.OpenFile. rewrite Hfile. cbn. split_and!; [reflexivity .. | exact Hfile]. }
  intros []; cbv beta.
  eapply triple_bind with (R := λ _ q, I q).
  { apply triple_output. intros q (Hout & Hse & Hdata).
    unfold log.output, modify, I, appending. cbn [snd]. rewrite Hout.
    unfold os.WriteFile. cbn [os.fname os.fflag]. rewrite Hdata, logFlags_append.
    cbn [logOutput stderr disk]. split_and!; [reflexivity | exact Hse |].
    exists "". rewrite lookup_insert_eq, append_empty_r. reflexivity. }
  intros []; cbv beta.
  eapply triple_bind with (R := λ loaded q, I q ∧ snd loaded = None).
  { apply triple_loadConfig. intros q cfg HI. split; [exact HI | reflexivity]. }
  intros [cfg err]; cbn [fst snd].
  destruct err as [e|]; [intros q [_ Hq]; discriminate Hq |].
  destruct (connectDB cfg) as [e|d].
  { apply triple_Fatal. intros q [HI _]. apply output_appending, HI. }
  eapply triple_bind with (R := λ _ q, I q).
  { apply triple_fmt_Println. intros q [HI _]. exact HI. }
  intros []; cbv beta.
  apply triple_get. intros q HI. unfold log.Printf. rewrite bind_output.
  cbn [ret fst snd always]. apply output_appending, HI.
Qed.

(** ** Where the configuration comes from *)

Lemma Getenv_union (env vars : os.Environ) (key : string) :
  os.Getenv key (env ∪ vars) = envThenFile env vars key.
Proof.
  unfold os.Getenv, envThenFile. rewrite lookup_union.
  destruct (env !! key), (vars !! key); reflexivity.
Qed.

(** X10: when [.env] loads, each field of the configuration is the value
    the process environment holds for its variable if the variable is
    set there, even to the empty string; only otherwise is it the value
    from the file, and the empty string when the file lacks it too. *)
Theorem loadConfig_precedence (p : Process) (text : string) (vars : os.Environ) :
  os.ReadFile ".env" (disk p) = inr text →
  godotenv.Parse text = inr vars →
  fst (loadConfig p)
  = Val (mkConfig (envThenFile (environ p) vars "DB_USERNAME")
           (envThenFile (environ p) vars "DB_PASSWORD")
           (envThenFile (environ p) vars "DB_HOST")
           (envThenFile (environ p) vars "DB_PORT")
           (envThenFile (environ p) vars "DB_NAME"),
         None).
Proof.
  intros Hread Hparse. run_main. rewrite Hread, Hparse. cbn [fst environ].
  rewrite !Getenv_union. reflexivity.
Qed.

(** ** The listen address *)

Lemma OpenFile_other (name other : string) (flag perm : Z) (fs : os.FS) :
  other ≠ name →
  snd (os.OpenFile name flag perm fs) !! other = fs !! other.
Proof.
  intros Hne. unfold os.OpenFile.
  destruct (fs !! name) as [[data wr|]|];
    repeat match goal with
           | |- context [if ?b then _ else _] => destruct b
           end;
    cbn [snd]; rewrite ?lookup_insert_ne by congruence; reflexivity.
Qed.

Lemma main_logging_beforeLoad (env : os.Environ) (fs : os.FS) :
  triple (λ q, q = start env fs) main_logging
    (λ r q, match r with
            | Val _ => beforeLoad env fs q
            | _ => True
            end).
Proof.
  intros q ->. run_main.
  destruct (String.eqb _ "file").
  - pose proof (OpenFile_other "app.log" ".env" logFlags 438 fs) as Hother.
    change (Z.lor (Z.lor os.O_CREATE os.O_WRONLY) os.O_APPEND) with logFlags.
    cbn [disk].
    destruct (os.OpenFile "app.log" logFlags 438 fs) as [[e|f] fs'] eqn:Hopen;
      simpl; [exact I |].
    apply OpenFile_handle in Hopen. subst f.
    split_and!; [reflexivity | apply Hother; discriminate | reflexivity].
  - destruct (String.eqb _ "stdout"); simpl; now split_and!.
Qed.

Lemma loadedEnv_beforeLoad (env : os.Environ) (fs : os.FS) (q : Process) :
  beforeLoad env fs q → loadedEnv (environ q) (disk q) = loadedEnv env fs.
Proof.
  intros (Henv & Hfile & _). unfold loadedEnv, os.ReadFile. now rewrite Henv, Hfile.
Qed.

(** X11: [PORT] is read after [.env] is loaded.  When [main], started on
    the environment [env] and the files [fs], enters the serve loop, the
    address is [:] followed by the value of [PORT] in [env] extended by
    the variables of [.env] that [env] lacks (if the file loads), and
    [:8000] when that value is empty or missing. *)
Theorem main_listen_addr (env : os.Environ) (fs : os.FS) (s : Server Conn) :
  fst (main (start env fs)) = Val s →
  Addr s = listenAddr (loadedEnv env fs).
Proof.
  enough (Hmain : triple (λ q, q = start env fs) main
            (λ r _, match r with
                    | Val s' => Addr s' = listenAddr (loadedEnv env fs)
                    | _ => True
                    end)).
  { intros Hs. specialize (Hmain _ eq_refl). cbv beta in Hmain.
    now rewrite Hs in Hmain. }
  unfold main.
  eapply triple_bind with (R := λ _ q, beforeLoad env fs q).
  { intros q Hq. pose proof (main_logging_beforeLoad env fs q Hq) as Hlog.
    cbv beta in Hlog. now destruct (fst (main_logging q)). }
  intros []; cbv beta.
  eapply triple_bind with (R := λ _ q, beforeLoad env fs q).
  { apply triple_output. intros q Hq. now apply output_beforeLoad. }
  intros []; cbv beta.
  eapply triple_bind
    with (R := λ loaded q, environ q = loadedEnv env fs ∧ snd loaded = None).
  { apply triple_loadConfig. intros q cfg Hq. cbn [environ snd].
    split; [now apply loadedEnv_beforeLoad | reflexivity]. }
  intros [cfg err]; cbn [fst snd].
  destruct err as [e|]; [intros q [_ Hq]; discriminate Hq |].
  destruct (connectDB cfg) as [e|d]; [apply triple_Fatal; intros; exact I |].
  eapply triple_bind with (R := λ _ q, environ q = loadedEnv env fs).
  { apply triple_fmt_Println. intros q [Hq _]. exact Hq. }
  intros []; cbv beta.
  apply triple_get. intros q Hq. unfold log.Printf. rewrite bind_output.
  cbn [ret fst snd Addr]. rewrite <- Hq. reflexivity.
Qed.

End Startup.

(** ** Concrete runs of the further properties *)

Lemma connectDB_pinged_run :
  connectDown (mkConfig "app" "secret" "db" "3306" "users") = inl Double.closed.
Proof.
  exact (proj2 (proj2 (connectDB_pinged (driver := downDriver)
                         (mkConfig "app" "secret" "db" "3306" "users")))
           (Double.mkMemDB false [] 1) (Double.mkMemDB false [] 1) Double.closed
           eq_refl eq_refl).
Defined.

Lemma getUsersHandler_query_error_run :
  reply (serve Double.listUsers (Double.GET "/users") Double.brokenDB ∅)
  = http.mkResponse 500 http.errorHeaders (Double.closed +:+ LF)
  ∧ sql.calls (db (snd (serve Double.listUsers (Double.GET "/users") Double.brokenDB ∅)))
    = [sql.QueryCall selectQuery].
Proof.
  pose proof (getUsersHandler_query_error (driver := Double.memDriver)
                (encoder := Double.plainQuote) (Double.GET "/users") Double.brokenDB ∅
                Double.closed (Double.mkMemDB false [] 1) eq_refl) as (_ & Hreply & Hdb).
  split; [exact Hreply | exact (f_equal sql.calls Hdb)].
Defined.

Lemma getUsersHandler_scan_error_run :
  reply (serve listUsersBadRows (Double.GET "/users") Double.emptyDB ∅)
  = http.mkResponse 500 http.errorHeaders ("sql: Scan error on column index 0" +:+ LF)
  ∧ sql.calls (db (snd (serve listUsersBadRows (Double.GET "/users") Double.emptyDB ∅)))
    = [sql.QueryCall selectQuery; sql.RowsCloseCall].
Proof.
  pose proof (getUsersHandler_scan_error (driver := badRowsDriver)
                (encoder := Double.plainQuote) (Double.GET "/users") Double.emptyDB ∅
                [(1, "Ada", "Lovelace")] "sql: Scan error on column index 0"
                [inr (3, "Alan", "Turing")] (Double.mkMemDB true [] 1) eq_refl)
    as (_ & Hreply & Hdb).
  split; [exact Hreply | exact (f_equal sql.calls Hdb)].
Defined.

Lemma getUsersHandler_lists_rows_run :
  http.Content (reply (serve Double.listUsers (Double.GET "/users") twoUsersDB ∅))
  = ("[" +:+ @marshalUser Double.plainQuote (mkUser 1 "Ada" "Lovelace")
     +:+ "," +:+ @marshalUser Double.plainQuote (mkUser 2 "Alan" "Turing")
     +:+ "]") +:+ LF.
Proof.
  pose proof (getUsersHandler_lists_rows (driver := Double.memDriver)
                (encoder := Double.plainQuote) (Double.GET "/users") twoUsersDB ∅
                (1, "Ada", "Lovelace") [(2, "Alan", "Turing")]
                (Double.mkMemDB true [mkUser 1 "Ada" "Lovelace"; mkUser 2 "Alan" "Turing"] 3)
                eq_refl) as (_ & Hreply & _).
  exact (f_equal http.Content Hreply).
Defined.

Lemma insert_paths_agree_run :
  db (snd (serve Double.postUsers
             (Double.POST "/users" "application/json" Double.adaBody) Double.emptyDB ∅))
  = db (snd (serve Double.postCreate
               (Double.POST "/create" Double.formType "first_name=Ada&last_name=Lovelace")
               Double.emptyDB ∅)).
Proof.
  exact (proj1 (insert_paths_agree (driver := Double.memDriver)
                  (decoder := Double.userDecoder) (forms := Double.formParser)
                  (Double.POST "/users" "application/json" Double.adaBody)
                  (Double.POST "/create" Double.formType "first_name=Ada&last_name=Lovelace")
                  Double.emptyDB ∅ (mkUser 7 "Ada" "Lovelace")
                  (<["last_name" := ["Lovelace"]]> (<["first_name" := ["Ada"]]> ∅)) None
                  eq_refl eq_refl eq_refl eq_refl eq_refl)).
Defined.

Lemma routes_one_statement_run :
  ∃ new : list sql.Call,
    sql.calls (db (snd (serve Double.listUsers (Double.GET "/users") twoUsersDB ∅)))
    = (sql.calls twoUsersDB ++ new)%list
    ∧ Forall fixedStatement new
    ∧ (roundTrips new ≤ 1)%nat
    ∧ files (snd (serve Double.listUsers (Double.GET "/users") twoUsersDB ∅)) = ∅.
Proof.
  apply (routes_one_statement (driver := Double.memDriver) (decoder := Double.userDecoder)
           (encoder := Double.plainQuote) (forms := Double.formParser)
           (engine := Double.staticEngine)
           (mkRoute "/users" Double.listUsers "GET") (Double.GET "/users") twoUsersDB ∅).
  right. left. reflexivity.
Defined.

Lemma main_stdout_only_run :
  onStdout "" ∅ (snd (Double.boot (start stdoutEnv ∅)))
  ∧ ∃ more : string,
      stdout (snd (Double.boot (start stdoutEnv ∅)))
      = "" +:+ "Starting application" +:+ LF +:+ more.
Proof.
  apply (main_stdout_only (driver := Double.memDriver) (decoder := Double.userDecoder)
           (encoder := Double.plainQuote) (forms := Double.formParser)
           (dotenv := Double.dotenvParser) (engine := Double.staticEngine)
           (start stdoutEnv ∅)).
  reflexivity.
Defined.

Lemma main_file_log_append_only_run :
  appending (("old" +:+ LF) +:+ "Starting application" +:+ LF) ""
    (snd (Double.boot (start fileEnv writableLog))).
Proof.
  apply (main_file_log_append_only (driver := Double.memDriver)
           (decoder := Double.userDecoder) (encoder := Double.plainQuote)
           (forms := Double.formParser) (dotenv := Double.dotenvParser)
           (engine := Double.staticEngine) (start fileEnv writableLog) ("old" +:+ LF));
    reflexivity.
Defined.

Lemma loadConfig_precedence_run :
  fst (Double.config Run.goodEnv) = Val (mkConfig "" "" "localhost" "" "app", None).
Proof.
  exact (loadConfig_precedence (dotenv := Double.dotenvParser) Run.goodEnv
           ("DB_HOST=db" +:+ LF +:+ "DB_NAME=app" +:+ LF)
           (<["DB_NAME" := "app"]> (<["DB_HOST" := "db"]> ∅)) eq_refl eq_refl).
Defined.

Lemma main_listen_addr_run :
  Addr (mkServer ":9000" doubleRoutes (sql.mkDB (Double.mkMemDB true [] 1) [sql.PingCall]))
  = listenAddr (loadedEnv (H := Double.dotenvParser) stdoutEnv portFiles).
Proof.
  apply (main_listen_addr (driver := Double.memDriver) (decoder := Double.userDecoder)
           (encoder := Double.plainQuote) (forms := Double.formParser)
           (dotenv := Double.dotenvParser) (engine := Double.staticEngine)
           stdoutEnv portFiles).
  reflexivity.
Defined.

Lemma showFormHandler_execute_error_run :
  fst (serve showFormFailing (Double.GET "/") Double.emptyDB Run.withForm) = Val tt
  ∧ reply (serve showFormFailing (Double.GET "/") Double.emptyDB Run.withForm)
    = http.mkResponse 200 ∅ "<form></form>".
Proof.
  pose proof (showFormHandler_execute_error (engine := failingEngine)
                (Double.GET "/") Double.emptyDB Run.withForm "<form></form>" true
                "<form></form>" "<form></form>" (Some "template: execution failed")
                eq_refl eq_refl eq_refl) as (Hret & Hreply & _).
  split; [exact Hret | exact Hreply].
Defined.

Lemma main_destination_before_load_run :
  onStdout (warning +:+ LF) fileInDotenv (snd (Double.boot (start ∅ fileInDotenv)))
  ∧ ∃ more : string,
      stdout (snd (Double.boot (start ∅ fileInDotenv)))
      = "Starting application" +:+ LF +:+ more.
Proof.
  apply (main_destination_before_load (driver := Double.memDriver)
           (decoder := Double.userDecoder) (encoder := Double.plainQuote)
           (forms := Double.formParser) (dotenv := Double.dotenvParser)
           (engine := Double.staticEngine) ∅ fileInDotenv).
  reflexivity.
Defined.
